(** * WebSocket-Infra: the CDK stack [WebSocketApiStack]

    Shallow embedding of the constructor of [lib/websocket-api-stack.ts].
    The constructor is straight-line imperative code that declares
    constructs inside the stack and then mutates some of them
    ([addIngressRule], [grantRead], [setAttribute], [Tags.of(..).add],
    [addListener]); it is embedded as a computation in a state-and-exception
    monad over the stack's construct tree, in which a call either returns
    or throws and leaves the tree as it was when it threw.  The text that
    the constructor hands to the instance as user data is embedded line by
    line, and read back with small readers for the three formats it
    contains (shell here-documents, systemd units, nginx configuration). *)

From Stdlib Require Import String Ascii List NArith Bool Lia.
From stdpp Require Import base option gmap strings.
Import ListNotations.
Open Scope string_scope.
Open Scope list_scope.

(* ================================================================== *)
(** ** JavaScript values used by the source *)
(* ================================================================== *)

(** An optional string property is [undefined] or a string; it is truthy
    when it is a non-empty string. *)
Definition truthy (s : option string) : bool :=
  match s with
  | Some (String _ _) => true
  | _ => false
  end.

(** [a || d] on an optional string. *)
Definition js_or (a : option string) (d : string) : string :=
  match a with
  | Some (String c s) => String c s
  | _ => d
  end.

(** [a ?? d]. *)
Definition js_nullish {A} (a : option A) (d : A) : A :=
  match a with
  | Some x => x
  | None => d
  end.

Definition dq : string := String (ascii_of_nat 34) EmptyString.

(* ================================================================== *)
(** ** cdk.Duration *)
(* ================================================================== *)

Inductive TimeUnit := Seconds | Minutes | Hours | Days.

Record Duration := mkDuration { amount : N; timeUnit : TimeUnit }.

Definition Duration_seconds (n : N) : Duration := mkDuration n Seconds.
Definition Duration_hours (n : N) : Duration := mkDuration n Hours.
Definition Duration_days (n : N) : Duration := mkDuration n Days.

Definition unit_in_seconds (u : TimeUnit) : N :=
  match u with
  | Seconds => 1
  | Minutes => 60
  | Hours => 3600
  | Days => 86400
  end%N.

Definition toSeconds (d : Duration) : N := (amount d * unit_in_seconds (timeUnit d))%N.

(* ================================================================== *)
(** ** ec2.UserData and the bootstrap script (source lines 167-271) *)
(* ================================================================== *)

Record UserData := mkUserData { shebang : string; lines : list string }.

Definition UserData_forLinux : UserData :=
  {| shebang := "#!/bin/bash"; lines := [] |}.

Definition addCommands (commands : list string) (u : UserData) : UserData :=
  {| shebang := shebang u; lines := lines u ++ commands |}.

(** The template expression of source line 211. *)
Definition aspnetcoreEnvironment (envName : string) : string :=
  if (envName =? "prod")%string then "Production" else "Development".

(** The arguments of the single [userData.addCommands(...)] call, in order. *)
Definition userData_commands (envName : string) : list string :=
  [ "#!/bin/bash";
    "set -e";
    "exec > >(tee /var/log/user-data.log)";
    "exec 2>&1";
    "";
    "echo " +:+ dq +:+ "Starting WebSocket API setup at $(date)" +:+ dq;
    "";
    "# Update system";
    "apt-get update -y";
    "apt-get upgrade -y";
    "";
    "# Install dependencies";
    "apt-get install -y awscli unzip nginx curl";
    "";
    "# Install .NET 8 Runtime";
    "wget https://dot.net/v1/dotnet-install.sh -O /tmp/dotnet-install.sh";
    "chmod +x /tmp/dotnet-install.sh";
    "/tmp/dotnet-install.sh --channel 8.0 --install-dir /usr/share/dotnet";
    "ln -sf /usr/share/dotnet/dotnet /usr/bin/dotnet";
    "";
    "# Verify .NET installation";
    "dotnet --version";
    "";
    "# Create application directory";
    "mkdir -p /var/www/websocketapi";
    "chown -R www-data:www-data /var/www/websocketapi";
    "";
    "# Create systemd service";
    "cat > /etc/systemd/system/websocketapi.service <<'EOF'";
    "[Unit]";
    "Description=WebSocket API .NET Application";
    "After=network.target";
    "";
    "[Service]";
    "Type=notify";
    "WorkingDirectory=/var/www/websocketapi";
    "ExecStart=/usr/bin/dotnet /var/www/websocketapi/WebSocketApi.dll";
    "Restart=always";
    "RestartSec=10";
    "KillSignal=SIGINT";
    "SyslogIdentifier=websocketapi";
    "User=www-data";
    "Environment=ASPNETCORE_ENVIRONMENT=" +:+ aspnetcoreEnvironment envName;
    "Environment=ASPNETCORE_URLS=http://0.0.0.0:5000";
    "";
    "[Install]";
    "WantedBy=multi-user.target";
    "EOF";
    "";
    "systemctl daemon-reload";
    "systemctl enable websocketapi";
    "";
    "# Configure Nginx as reverse proxy";
    "cat > /etc/nginx/sites-available/websocketapi <<'EOF'";
    "upstream websocketapi {";
    "    server 127.0.0.1:5000;";
    "}";
    "";
    "server {";
    "    listen 80 default_server;";
    "    server_name _;";
    "";
    "    location / {";
    "        proxy_pass http://websocketapi;";
    "        proxy_http_version 1.1;";
    "        proxy_set_header Upgrade $http_upgrade;";
    "        proxy_set_header Connection " +:+ dq +:+ "upgrade" +:+ dq +:+ ";";
    "        proxy_set_header Host $host;";
    "        proxy_set_header X-Real-IP $remote_addr;";
    "        proxy_set_header X-Forwarded-For $proxy_add_x_forwarded_for;";
    "        proxy_set_header X-Forwarded-Proto $scheme;";
    "        proxy_cache_bypass $http_upgrade;";
    "        proxy_read_timeout 300s;";
    "        proxy_connect_timeout 75s;";
    "    }";
    "";
    "    location /ws {";
    "        proxy_pass http://websocketapi/ws;";
    "        proxy_http_version 1.1;";
    "        proxy_set_header Upgrade $http_upgrade;";
    "        proxy_set_header Connection " +:+ dq +:+ "upgrade" +:+ dq +:+ ";";
    "        proxy_set_header Host $host;";
    "        proxy_set_header X-Real-IP $remote_addr;";
    "        proxy_set_header X-Forwarded-For $proxy_add_x_forwarded_for;";
    "        proxy_set_header X-Forwarded-Proto $scheme;";
    "        proxy_read_timeout 86400;";
    "    }";
    "";
    "    location /health {";
    "        proxy_pass http://websocketapi/health;";
    "        access_log off;";
    "    }";
    "}";
    "EOF";
    "";
    "ln -sf /etc/nginx/sites-available/websocketapi /etc/nginx/sites-enabled/";
    "rm -f /etc/nginx/sites-enabled/default";
    "";
    "nginx -t";
    "systemctl restart nginx";
    "";
    "echo " +:+ dq +:+ "WebSocket API setup completed at $(date)" +:+ dq
  ].

(* ================================================================== *)
(** ** Readers for the generated host configuration

    These functions give the generated text its meaning: which file a
    here-document writes, which keys a systemd section sets, which
    directives an nginx [location] block carries. *)
(* ================================================================== *)

Module Text.

Fixpoint ltrim (s : string) : string :=
  match s with
  | String " "%char s' => ltrim s'
  | _ => s
  end.

Definition strip_prefix (p s : string) : option string :=
  if String.prefix p s
  then Some (String.substring (String.length p) (String.length s - String.length p) s)
  else None.

Definition strip_suffix (q s : string) : option string :=
  let n := String.length s - String.length q in
  if (String.length q <=? String.length s)%nat
     && (String.substring n (String.length q) s =? q)%string
  then Some (String.substring 0 n s)
  else None.

(** The lines strictly after the first line satisfying [p]. *)
Fixpoint after_first (p : string -> bool) (ls : list string) : option (list string) :=
  match ls with
  | [] => None
  | l :: rest => if p l then Some rest else after_first p rest
  end.

(** The lines strictly before the first line satisfying [p]; [None] when
    no line does (an unterminated block). *)
Fixpoint before_first (p : string -> bool) (ls : list string) : option (list string) :=
  match ls with
  | [] => None
  | l :: rest => if p l then Some [] else cons l <$> before_first p rest
  end.

(** The lines before the first line satisfying [p], or all of them. *)
Fixpoint take_until (p : string -> bool) (ls : list string) : list string :=
  match ls with
  | [] => []
  | l :: rest => if p l then [] else l :: take_until p rest
  end.

Fixpoint filter_map {A B} (f : A -> option B) (l : list A) : list B :=
  match l with
  | [] => []
  | x :: rest =>
      match f x with
      | Some y => y :: filter_map f rest
      | None => filter_map f rest
      end
  end.

Definition digit (c : ascii) : option N :=
  let n := N_of_ascii c in
  if ((48 <=? n) && (n <=? 57))%N then Some (n - 48)%N else None.

Fixpoint digits_from (acc : N) (s : string) : option N :=
  match s with
  | EmptyString => Some acc
  | String c s' =>
      match digit c with
      | Some d => digits_from (10 * acc + d)%N s'
      | None => None
      end
  end.

(** A non-empty string of decimal digits. *)
Definition decimal (s : string) : option N :=
  match s with
  | EmptyString => None
  | _ => digits_from 0%N s
  end.

End Text.

(** Shell: the body of [cat > path <<'EOF' ... EOF]. *)
Module Shell.
Import Text.

Definition heredoc (path : string) (script : list string) : option (list string) :=
  body ← after_first (String.eqb ("cat > " +:+ path +:+ " <<'EOF'")) script;
  before_first (String.eqb "EOF") body.

(** The file that receives the script's output: [exec > >(tee FILE)]. *)
Definition log_path (script : list string) : option string :=
  head (filter_map (fun l => strip_prefix "exec > >(tee " l ≫= strip_suffix ")") script).

(** Units named on a [systemctl enable] line. *)
Definition enabled_units (script : list string) : list string :=
  filter_map (strip_prefix "systemctl enable ") script.

End Shell.

(** systemd unit files. *)
Module Systemd.
Import Text.

Definition unit_path (name : string) : string :=
  "/etc/systemd/system/" +:+ name +:+ ".service".

Definition section (name : string) (unit_file : list string) : option (list string) :=
  take_until (String.prefix "[") <$> after_first (String.eqb ("[" +:+ name +:+ "]")) unit_file.

(** Every value assigned to [key] in a section, in order. *)
Definition values (key : string) (sec : list string) : list string :=
  filter_map (strip_prefix (key +:+ "=")) sec.

(** The value of an [Environment=VAR=value] assignment. *)
Definition environment (var : string) (sec : list string) : option string :=
  head (filter_map (strip_prefix (var +:+ "=")) (values "Environment" sec)).

Inductive RestartPolicy :=
| RestartNo | RestartOnSuccess | RestartOnFailure | RestartOnAbnormal
| RestartOnWatchdog | RestartOnAbort | RestartAlways.

Definition restart_policy_of (v : string) : option RestartPolicy :=
  if (v =? "no")%string then Some RestartNo
  else if (v =? "on-success")%string then Some RestartOnSuccess
  else if (v =? "on-failure")%string then Some RestartOnFailure
  else if (v =? "on-abnormal")%string then Some RestartOnAbnormal
  else if (v =? "on-watchdog")%string then Some RestartOnWatchdog
  else if (v =? "on-abort")%string then Some RestartOnAbort
  else if (v =? "always")%string then Some RestartAlways
  else None.

(** [Restart=] of the [Service] section. *)
Definition restart (unit_file : list string) : option RestartPolicy :=
  sec ← section "Service" unit_file;
  match values "Restart" sec with
  | [v] => restart_policy_of v
  | _ => None
  end.

(** [RestartSec=] of the [Service] section, a plain number of seconds. *)
Definition restart_sec (unit_file : list string) : option N :=
  sec ← section "Service" unit_file;
  match values "RestartSec" sec with
  | [v] => decimal v
  | _ => None
  end.

Definition exec_start (unit_file : list string) : option string :=
  sec ← section "Service" unit_file;
  head (values "ExecStart" sec).

End Systemd.

(** nginx configuration. *)
Module Nginx.
Import Text.

Definition location_path (line : string) : option string :=
  strip_prefix "location " (ltrim line) ≫= strip_suffix " {".

Definition is_location (path : string) (line : string) : bool :=
  match location_path line with
  | Some p => (p =? path)%string
  | None => false
  end.

Definition closes_block (line : string) : bool := (ltrim line =? "}")%string.

(** The paths of all [location] blocks, in order. *)
Definition locations (conf : list string) : list string :=
  filter_map location_path conf.

(** The directives inside [location path { ... }]. *)
Definition location (path : string) (conf : list string) : option (list string) :=
  body ← after_first (is_location path) conf;
  before_first closes_block body.

(** The arguments of every occurrence of directive [name] in a block. *)
Definition directive (name : string) (block : list string) : list string :=
  filter_map (fun l => strip_prefix (name +:+ " ") (ltrim l) ≫= strip_suffix ";") block.

(** A time argument: a number of seconds, with an optional unit suffix. *)
Definition time (v : string) : option N :=
  match decimal v with
  | Some n => Some n
  | None =>
      match strip_suffix "s" v ≫= decimal with
      | Some n => Some n
      | None =>
          match strip_suffix "m" v ≫= decimal with
          | Some n => Some (60 * n)%N
          | None =>
              match strip_suffix "h" v ≫= decimal with
              | Some n => Some (3600 * n)%N
              | None => N.mul 86400 <$> (strip_suffix "d" v ≫= decimal)
              end
          end
      end
  end.

(** [proxy_read_timeout] of a location, in seconds. *)
Definition read_timeout (path : string) (conf : list string) : option N :=
  block ← location path conf;
  match directive "proxy_read_timeout" block with
  | [v] => time v
  | _ => None
  end.

Definition access_log (path : string) (conf : list string) : option string :=
  block ← location path conf;
  match directive "access_log" block with
  | [v] => Some v
  | _ => None
  end.

End Nginx.

(** The two files the bootstrap script writes. *)
Definition supervision_unit (u : UserData) : option (list string) :=
  Shell.heredoc (Systemd.unit_path "websocketapi") (lines u).

Definition reverse_proxy_config (u : UserData) : option (list string) :=
  Shell.heredoc "/etc/nginx/sites-available/websocketapi" (lines u).


(* ================================================================== *)
(** ** The constructs the stack declares

    One record per CDK construct the source instantiates, holding the
    properties the source passes and the parts later calls mutate.  A
    construct refers to another one by its identifier in the stack, so a
    later mutation of the referred construct is seen through every
    reference. *)
(* ================================================================== *)

Definition ConstructId := string.

(** A deploy-time attribute of a construct ([alb.loadBalancerDnsName],
    [instance.instanceId], ...): an unresolved token naming it. *)
Definition token (id : ConstructId) (attribute : string) : string :=
  "${" +:+ id +:+ "." +:+ attribute +:+ "}".

(** *** aws-ec2 *)

Inductive InstanceClass := T2 | T3 | T3A | T4G | M5 | C5.
Inductive InstanceSize := NANO | MICRO | SMALL | MEDIUM | LARGE | XLARGE.
Record InstanceType := InstanceType_of
  { instanceClass : InstanceClass; instanceSize : InstanceSize }.

Inductive SubnetType := PUBLIC | PRIVATE_WITH_EGRESS | PRIVATE_ISOLATED.

Record SubnetConfiguration := mkSubnetConfiguration
  { cidrMask : N; subnetGroupName : string; subnetType : SubnetType }.

Record VpcProps := mkVpcProps
  { vpcName : string;
    maxAzs : nat;
    natGateways : N;
    subnetConfiguration : list SubnetConfiguration }.

(** What [ec2.Vpc.fromLookup] hands back for an existing network. *)
Record VpcAttributes := mkVpcAttributes { attr_vpcId : string }.

Inductive IVpc :=
| Vpc_new (p : VpcProps)
| Vpc_imported (a : VpcAttributes).

Record SubnetSelection := mkSubnetSelection { sel_subnetType : SubnetType }.

Inductive Peer :=
| Peer_ipv4 (cidr : string)
| Peer_securityGroup (sg : ConstructId).

Definition Peer_anyIpv4 : Peer := Peer_ipv4 "0.0.0.0/0".

Inductive Port := Port_tcp (n : N).

Record IngressRule := mkIngressRule
  { peer : Peer; port : Port; rule_description : string }.

Record SecurityGroup := mkSecurityGroup
  { sg_vpc : ConstructId;
    securityGroupName : string;
    sg_description : string;
    allowAllOutbound : bool;
    ingressRules : list IngressRule }.

Inductive OperatingSystemType := LINUX | WINDOWS.

Record MachineImage := MachineImage_fromSsmParameter
  { parameterName : string; os : OperatingSystemType }.

Inductive EbsDeviceVolumeType := GP2 | GP3 | IO1 | STANDARD.

Record BlockDevice := mkBlockDevice
  { deviceName : string;
    volumeSize : N;
    volumeType : EbsDeviceVolumeType;
    encrypted : bool }.

Record Instance := mkInstance
  { inst_vpc : ConstructId;
    inst_vpcSubnets : SubnetSelection;
    inst_instanceType : InstanceType;
    machineImage : MachineImage;
    inst_securityGroup : ConstructId;
    inst_role : ConstructId;
    inst_userData : UserData;
    blockDevices : list BlockDevice;
    inst_tags : list (string * string) }.

(** *** aws-s3 *)

Inductive RemovalPolicy := DESTROY | RETAIN | SNAPSHOT.
Inductive BucketEncryption := UNENCRYPTED | S3_MANAGED | KMS_MANAGED | KMS.
Inductive BlockPublicAccess := BLOCK_ALL | BLOCK_ACLS.

Record LifecycleRule := mkLifecycleRule
  { rule_id : string; rule_enabled : bool; expiration : Duration }.

Record Bucket := mkBucket
  { bucketName : string;
    removalPolicy : RemovalPolicy;
    encryption : BucketEncryption;
    blockPublicAccess : BlockPublicAccess;
    versioned : bool;
    lifecycleRules : list LifecycleRule }.

(** The grant methods of a bucket. *)
Inductive BucketAccess :=
| GrantRead | GrantWrite | GrantPut | GrantDelete | GrantReadWrite.

Definition read_only (a : BucketAccess) : bool :=
  match a with
  | GrantRead => true
  | _ => false
  end.

(** *** aws-iam *)

Record Role := mkRole
  { roleName : string;
    assumedBy : string;
    managedPolicies : list string;
    role_description : string;
    bucketGrants : list (BucketAccess * ConstructId) }.

(** Everything a role is allowed: the managed policies attached to it and
    the grants other constructs added to it. *)
Inductive Grant :=
| ManagedPolicy (name : string)
| BucketGrant (access : BucketAccess) (bucket : ConstructId).

Definition capability_grants (r : Role) : list Grant :=
  map ManagedPolicy (managedPolicies r)
  ++ map (fun g => BucketGrant (fst g) (snd g)) (bucketGrants r).

(** *** aws-elasticloadbalancingv2 *)

Inductive Protocol := HTTP | HTTPS.

Record HealthCheck := mkHealthCheck
  { hc_enabled : bool;
    path : string;
    hc_protocol : Protocol;
    interval : Duration;
    timeout : Duration;
    healthyThresholdCount : N;
    unhealthyThresholdCount : N;
    healthyHttpCodes : string }.

Record InstanceTarget := mkInstanceTarget
  { target_instance : ConstructId; target_port : N }.

Record ApplicationTargetGroup := mkApplicationTargetGroup
  { tg_vpc : ConstructId;
    tg_port : N;
    tg_protocol : Protocol;
    targetGroupName : string;
    targets : list InstanceTarget;
    healthCheck : HealthCheck;
    deregistrationDelay : Duration;
    stickinessCookieDuration : option Duration;
    attributes : gmap string string }.

Record Listener := mkListener
  { listener_id : string;
    listener_port : N;
    listener_protocol : Protocol;
    defaultTargetGroups : list ConstructId }.

Record ApplicationLoadBalancer := mkApplicationLoadBalancer
  { alb_vpc : ConstructId;
    internetFacing : bool;
    loadBalancerName : string;
    alb_securityGroup : ConstructId;
    alb_vpcSubnets : SubnetSelection;
    listeners : list Listener }.

(** *** core *)

Record CfnOutput := mkCfnOutput
  { value : string;
    output_description : string;
    exportName : option string }.

Inductive Construct :=
| CVpc (v : IVpc)
| CBucket (b : Bucket)
| CRole (r : Role)
| CSecurityGroup (g : SecurityGroup)
| CInstance (i : Instance)
| CLoadBalancer (a : ApplicationLoadBalancer)
| CTargetGroup (t : ApplicationTargetGroup)
| COutput (o : CfnOutput).

Record Stack := mkStack
  { stack_name : option string;
    stack_description : option string;
    account : string;
    region : string;
    stack_tags : list (string * string);
    children : list (ConstructId * Construct) }.


(** The children the constructor gives the stack, in declaration order,
    one entry per [new X(this, id, ...)].  Children the library adds on
    its own, under identifiers of its own making, are left out.  Within a
    scope an identifier names one child. *)
Definition Children := list (ConstructId * Construct).

Fixpoint child (id : ConstructId) (cs : Children) : option Construct :=
  match cs with
  | [] => None
  | (k, c) :: rest => if (k =? id)%string then Some c else child id rest
  end.

Fixpoint set_child (id : ConstructId) (c : Construct) (cs : Children) : Children :=
  match cs with
  | [] => []
  | (k, c0) :: rest =>
      if (k =? id)%string then (k, c) :: rest else (k, c0) :: set_child id c rest
  end.

(** The child named [id], when it is of the kind asked for. *)
Definition find_child {A} (id : ConstructId) (as_kind : Construct -> option A)
    (cs : Children) : option A :=
  child id cs ≫= as_kind.

Definition as_vpc (c : Construct) : option IVpc :=
  match c with CVpc v => Some v | _ => None end.
Definition as_bucket (c : Construct) : option Bucket :=
  match c with CBucket b => Some b | _ => None end.
Definition as_role (c : Construct) : option Role :=
  match c with CRole r => Some r | _ => None end.
Definition as_securityGroup (c : Construct) : option SecurityGroup :=
  match c with CSecurityGroup g => Some g | _ => None end.
Definition as_instance (c : Construct) : option Instance :=
  match c with CInstance i => Some i | _ => None end.
Definition as_loadBalancer (c : Construct) : option ApplicationLoadBalancer :=
  match c with CLoadBalancer a => Some a | _ => None end.
Definition as_targetGroup (c : Construct) : option ApplicationTargetGroup :=
  match c with CTargetGroup t => Some t | _ => None end.
Definition as_output (c : Construct) : option CfnOutput :=
  match c with COutput o => Some o | _ => None end.

(* ================================================================== *)
(** ** The composition monad

    A constructor body runs against the stack under construction: each
    [new X(this, id, ...)] adds a child under [id], each mutating method
    rewrites one child in place.  A call returns, or throws; what is
    thrown comes with the stack as it was when the call was made. *)
(* ================================================================== *)

Inductive CompositionError :=
| DuplicateConstruct (id : ConstructId)
| Rejected (id : ConstructId)
| NoSuchConstruct (id : ConstructId)
| LookupThrew (vpcId : string).

Inductive Outcome (A : Type) :=
| Returned (a : A) (s : Stack)
| Thrown (e : CompositionError) (s : Stack).
Arguments Returned {A} a s.
Arguments Thrown {A} e s.

Definition M (A : Type) : Type := Stack -> Outcome A.

Definition ret {A} (a : A) : M A := fun s => Returned a s.

Definition bind {A B} (m : M A) (k : A -> M B) : M B :=
  fun s =>
    match m s with
    | Returned a s' => k a s'
    | Thrown e s' => Thrown e s'
    end.

(** The constructor body is written with stdpp's monad notation:
    [x ← c; k] and [c;; k]. *)
#[global] Instance M_ret : MRet M := @ret.
#[global] Instance M_bind : MBind M := fun A B k m => bind m k.

Definition with_children (s : Stack) (cs : Children) : Stack :=
  {| stack_name := stack_name s;
     stack_description := stack_description s;
     account := account s;
     region := region s;
     stack_tags := stack_tags s;
     children := cs |}.

Definition inspect {A} (id : ConstructId) (as_kind : Construct -> option A) : M A :=
  fun s =>
    match find_child id as_kind (children s) with
    | Some a => Returned a s
    | None => Thrown (NoSuchConstruct id) s
    end.

(** [this.account], [this.region]. *)
Definition this_account : M string := fun s => Returned (account s) s.
Definition this_region : M string := fun s => Returned (region s) s.

(* ================================================================== *)
(** ** The construct methods the source calls *)
(* ================================================================== *)

Section Composition.

(** The construct library is a parameter, in two parts.

    [accepts id c] is its own validation of a construct: whether it lets
    [c] stand under [id] (name rules of buckets, roles, load balancers and
    target groups; a subnet selection the network has no group for; and
    the like).  It is consulted whenever a construct is declared or
    changed; a construct it does not accept is [Rejected].

    [lookupVpc account region vpcId] is what [ec2.Vpc.fromLookup] does for
    a stack of that account and region: the network it hands back (found,
    or the placeholder it uses while the answer is pending), or [None]
    when it throws. *)
Variable accepts : ConstructId -> Construct -> bool.
Variable lookupVpc : string -> string -> string -> option VpcAttributes.

(** [new X(this, id, ...)]: the scope refuses a second child under an
    identifier it already has; then the library validates the construct.
    A throw is reported with the tree as it was before the call. *)
Definition declare (id : ConstructId) (c : Construct) : M ConstructId :=
  fun s =>
    match child id (children s) with
    | Some _ => Thrown (DuplicateConstruct id) s
    | None =>
        if accepts id c
        then Returned id (with_children s (children s ++ [(id, c)]))
        else Thrown (Rejected id) s
    end.

(** A method that changes the construct [id] in place. *)
Definition mutate (id : ConstructId) (f : Construct -> option Construct) : M unit :=
  fun s =>
    match child id (children s) ≫= f with
    | Some c =>
        if accepts id c
        then Returned tt (with_children s (set_child id c (children s)))
        else Thrown (Rejected id) s
    | None => Thrown (NoSuchConstruct id) s
    end.

Definition new_Vpc (id : ConstructId) (p : VpcProps) : M ConstructId :=
  declare id (CVpc (Vpc_new p)).

Definition Vpc_fromLookup (id : ConstructId) (vpcId : string) : M ConstructId :=
  acct ← this_account;
  reg ← this_region;
  match lookupVpc acct reg vpcId with
  | Some a => declare id (CVpc (Vpc_imported a))
  | None => fun s => Thrown (LookupThrew vpcId) s
  end.

(** [vpc.vpcId] *)
Definition vpcId_of (vpc : ConstructId) : M string :=
  v ← inspect vpc as_vpc;
  mret match v with
       | Vpc_new _ => token vpc "VpcId"
       | Vpc_imported a => attr_vpcId a
       end.

Definition new_Bucket (id : ConstructId) (b : Bucket) : M ConstructId :=
  declare id (CBucket b).

(** [new iam.Role(...)]: no grant has been added yet. *)
Definition new_Role (id : ConstructId) (name principal : string)
    (policies : list string) (descr : string) : M ConstructId :=
  declare id (CRole (mkRole name principal policies descr [])).

(** [bucket.grantRead(role)] *)
Definition grantRead (bucket role : ConstructId) : M unit :=
  mutate role (fun c =>
    match c with
    | CRole r =>
        Some (CRole (mkRole (roleName r) (assumedBy r) (managedPolicies r)
                            (role_description r)
                            (bucketGrants r ++ [(GrantRead, bucket)])))
    | _ => None
    end).

(** [new ec2.SecurityGroup(...)]: no ingress rule yet. *)
Definition new_SecurityGroup (id : ConstructId) (vpc : ConstructId)
    (name descr : string) (allOutbound : bool) : M ConstructId :=
  declare id (CSecurityGroup (mkSecurityGroup vpc name descr allOutbound [])).

(** [sg.addIngressRule(peer, port, description)] *)
Definition addIngressRule (sg : ConstructId) (p : Peer) (pt : Port) (descr : string) : M unit :=
  mutate sg (fun c =>
    match c with
    | CSecurityGroup g =>
        Some (CSecurityGroup
                (mkSecurityGroup (sg_vpc g) (securityGroupName g) (sg_description g)
                                 (allowAllOutbound g)
                                 (ingressRules g ++ [mkIngressRule p pt descr])))
    | _ => None
    end).

(** [new ec2.Instance(...)]: no tag yet. *)
Definition new_Instance (id : ConstructId) (vpc : ConstructId) (sel : SubnetSelection)
    (ty : InstanceType) (image : MachineImage) (sg role : ConstructId)
    (ud : UserData) (devices : list BlockDevice) : M ConstructId :=
  declare id (CInstance (mkInstance vpc sel ty image sg role ud devices [])).

(** [cdk.Tags.of(instance).add(key, value)] *)
Definition Tags_add (target : ConstructId) (key val : string) : M unit :=
  mutate target (fun c =>
    match c with
    | CInstance i =>
        Some (CInstance
                (mkInstance (inst_vpc i) (inst_vpcSubnets i) (inst_instanceType i)
                            (machineImage i) (inst_securityGroup i) (inst_role i)
                            (inst_userData i) (blockDevices i)
                            (inst_tags i ++ [(key, val)])))
    | _ => None
    end).

(** [new elbv2.ApplicationLoadBalancer(...)]: no listener yet. *)
Definition new_ApplicationLoadBalancer (id : ConstructId) (vpc : ConstructId)
    (facing : bool) (name : string) (sg : ConstructId) (sel : SubnetSelection)
  : M ConstructId :=
  declare id (CLoadBalancer (mkApplicationLoadBalancer vpc facing name sg sel [])).

(** [alb.addListener(id, { port, protocol, defaultTargetGroups })] *)
Definition addListener (alb : ConstructId) (id : string) (pt : N) (proto : Protocol)
    (groups : list ConstructId) : M unit :=
  mutate alb (fun c =>
    match c with
    | CLoadBalancer a =>
        Some (CLoadBalancer
                (mkApplicationLoadBalancer (alb_vpc a) (internetFacing a)
                   (loadBalancerName a) (alb_securityGroup a) (alb_vpcSubnets a)
                   (listeners a ++ [mkListener id pt proto groups])))
    | _ => None
    end).

(** [new elbv2.ApplicationTargetGroup(...)]: the attribute map starts empty. *)
Definition new_ApplicationTargetGroup (id : ConstructId) (vpc : ConstructId) (pt : N)
    (proto : Protocol) (name : string) (tgts : list InstanceTarget)
    (hc : HealthCheck) (dereg : Duration) (cookie : option Duration) : M ConstructId :=
  declare id (CTargetGroup (mkApplicationTargetGroup vpc pt proto name tgts hc dereg cookie ∅)).

(** [targetGroup.setAttribute(key, value)] *)
Definition setAttribute (tg : ConstructId) (key val : string) : M unit :=
  mutate tg (fun c =>
    match c with
    | CTargetGroup t =>
        Some (CTargetGroup
                (mkApplicationTargetGroup (tg_vpc t) (tg_port t) (tg_protocol t)
                   (targetGroupName t) (targets t) (healthCheck t)
                   (deregistrationDelay t) (stickinessCookieDuration t)
                   (<[key := val]> (attributes t))))
    | _ => None
    end).

Definition new_CfnOutput (id : ConstructId) (val descr : string) (export : option string)
  : M ConstructId :=
  declare id (COutput (mkCfnOutput val descr export)).

(* ================================================================== *)
(** ** [WebSocketApiStack] (lib/websocket-api-stack.ts) *)
(* ================================================================== *)

(** [cdk.Environment] *)
Record Environment := mkEnvironment
  { env_account : option string; env_region : option string }.

Record WebSocketApiStackProps := mkProps
  { stackName : option string;
    description : option string;
    env : option Environment;
    tags : list (string * string);
    environmentName : option string;
    instanceType : option InstanceType;
    createVpc : option bool;
    vpcId : option string }.

(** The three public fields of the stack object. *)
Record StackFields := mkStackFields
  { albDnsName : string; deploymentBucketName : string; instanceId : string }.

(** [props?.field] *)
Definition optional {A} (props : option WebSocketApiStackProps)
    (field : WebSocketApiStackProps -> option A) : option A :=
  match props with
  | Some p => field p
  | None => None
  end.

(** [x === false] on an optional boolean. *)
Definition is_false (b : option bool) : bool :=
  match b with
  | Some false => true
  | _ => false
  end.

Definition WebSocketApiStack_constructor (props : option WebSocketApiStackProps)
  : M StackFields :=
  let envName := js_or (optional props environmentName) "dev" in
  let instanceType := js_nullish (optional props instanceType) (InstanceType_of T3 SMALL) in

  (* VPC *)
  vpc ← (if is_false (optional props createVpc) && truthy (optional props vpcId)
          then Vpc_fromLookup "ExistingVPC" (js_or (optional props vpcId) "")
          else new_Vpc "WebSocketVPC"
                 {| vpcName := "websocket-api-vpc-" +:+ envName;
                    maxAzs := 2;
                    natGateways := 1;
                    subnetConfiguration :=
                      [ mkSubnetConfiguration 24 "Public" PUBLIC;
                        mkSubnetConfiguration 24 "Private" PRIVATE_WITH_EGRESS ] |});

  (* S3 Deployment Bucket *)
  acct ← this_account;
  deploymentBucket ← new_Bucket "DeploymentBucket"
    {| bucketName := "websocket-api-deployments-" +:+ envName +:+ "-" +:+ acct;
       removalPolicy := RETAIN;
       encryption := S3_MANAGED;
       blockPublicAccess := BLOCK_ALL;
       versioned := false;
       lifecycleRules :=
         [ mkLifecycleRule "DeleteOldDeployments" true (Duration_days 30) ] |};

  (* IAM Role for EC2 *)
  ec2Role ← new_Role "EC2Role"
    ("websocket-api-ec2-role-" +:+ envName)
    "ec2.amazonaws.com"
    [ "AmazonSSMManagedInstanceCore"; "CloudWatchAgentServerPolicy" ]
    "IAM role for WebSocket API EC2 instance";
  grantRead deploymentBucket ec2Role;;

  (* Security Groups *)
  albSecurityGroup ← new_SecurityGroup "ALBSecurityGroup" vpc
    ("websocket-api-alb-sg-" +:+ envName)
    "Security group for WebSocket API ALB" true;
  addIngressRule albSecurityGroup Peer_anyIpv4 (Port_tcp 80)
    "Allow HTTP traffic from anywhere";;
  addIngressRule albSecurityGroup Peer_anyIpv4 (Port_tcp 443)
    "Allow HTTPS traffic from anywhere";;
  ec2SecurityGroup ← new_SecurityGroup "EC2SecurityGroup" vpc
    ("websocket-api-ec2-sg-" +:+ envName)
    "Security group for WebSocket API EC2 instance" true;
  addIngressRule ec2SecurityGroup (Peer_securityGroup albSecurityGroup) (Port_tcp 80)
    "Allow traffic from ALB";;
  addIngressRule ec2SecurityGroup (Peer_securityGroup albSecurityGroup) (Port_tcp 5000)
    "Allow traffic from ALB to app port";;

  (* User Data Script *)
  let userData := addCommands (userData_commands envName) UserData_forLinux in

  (* EC2 Instance *)
  instance ← new_Instance "WebSocketApiInstance" vpc
    (mkSubnetSelection PRIVATE_WITH_EGRESS)
    instanceType
    (MachineImage_fromSsmParameter
       "/aws/service/canonical/ubuntu/server/22.04/stable/current/amd64/hvm/ebs-gp2/ami-id"
       LINUX)
    ec2SecurityGroup ec2Role userData
    [ mkBlockDevice "/dev/sda1" 20 GP3 true ];
  Tags_add instance "Name" "WebSocketApi";;
  Tags_add instance "Environment" envName;;
  Tags_add instance "ManagedBy" "CDK";;

  (* Application Load Balancer *)
  alb ← new_ApplicationLoadBalancer "WebSocketALB" vpc true
    ("websocket-api-alb-" +:+ envName) albSecurityGroup
    (mkSubnetSelection PUBLIC);

  (* Target Group *)
  targetGroup ← new_ApplicationTargetGroup "TargetGroup" vpc 80 HTTP
    ("websocket-api-tg-" +:+ envName)
    [ mkInstanceTarget instance 80 ]
    {| hc_enabled := true;
       path := "/health";
       hc_protocol := HTTP;
       interval := Duration_seconds 30;
       timeout := Duration_seconds 5;
       healthyThresholdCount := 2;
       unhealthyThresholdCount := 3;
       healthyHttpCodes := "200" |}
    (Duration_seconds 30)
    (Some (Duration_hours 1));
  setAttribute targetGroup "stickiness.enabled" "true";;
  setAttribute targetGroup "stickiness.type" "lb_cookie";;

  (* ALB Listener *)
  addListener alb "HttpListener" 80 HTTP [ targetGroup ];;

  (* Outputs *)
  let loadBalancerDnsName := token alb "DNSName" in
  let bucketName := token deploymentBucket "Ref" in
  let instanceId := token instance "InstanceId" in
  new_CfnOutput "ALBDnsName" loadBalancerDnsName
    "Application Load Balancer DNS Name"
    (Some ("WebSocketApi-ALB-DNS-" +:+ envName));;
  new_CfnOutput "WebSocketURL" ("ws://" +:+ loadBalancerDnsName +:+ "/ws")
    "WebSocket Connection URL"
    (Some ("WebSocketApi-WS-URL-" +:+ envName));;
  new_CfnOutput "HealthCheckURL" ("http://" +:+ loadBalancerDnsName +:+ "/health")
    "Health Check URL" None;;
  new_CfnOutput "DeploymentBucket" bucketName
    "S3 Deployment Bucket Name"
    (Some ("WebSocketApi-Bucket-" +:+ envName));;
  new_CfnOutput "InstanceId" instanceId "EC2 Instance ID" None;;
  new_CfnOutput "InstanceTag" "WebSocketApi"
    "EC2 Instance Name Tag (for GitHub Actions)"
    (Some ("WebSocketApi-InstanceTag-" +:+ envName));;
  theVpcId ← vpcId_of vpc;
  new_CfnOutput "VpcId" theVpcId "VPC ID" None;;

  (* Store values for programmatic access *)
  mret {| albDnsName := loadBalancerDnsName;
         deploymentBucketName := bucketName;
         instanceId := instanceId |}.

(** [super(scope, id, props)]: an empty stack whose account and region come
    from [props.env], and are deploy-time tokens when it does not give
    them. *)
Definition stack_account (props : option WebSocketApiStackProps) : string :=
  js_nullish (e ← optional props env; env_account e) "${AWS::AccountId}".

Definition stack_region (props : option WebSocketApiStackProps) : string :=
  js_nullish (e ← optional props env; env_region e) "${AWS::Region}".

Definition Stack_super (props : option WebSocketApiStackProps) : Stack :=
  {| stack_name := optional props stackName;
     stack_description := optional props description;
     account := stack_account props;
     region := stack_region props;
     stack_tags := from_option tags [] props;
     children := [] |}.

(** [new WebSocketApiStack(scope, id, props)] *)
Definition compose (props : option WebSocketApiStackProps) : Outcome StackFields :=
  WebSocketApiStack_constructor props (Stack_super props).

End Composition.

(* ================================================================== *)
(** ** Reading the construct tree *)
(* ================================================================== *)

(** [props?.environmentName || 'dev'] (source line 42). *)
Definition envName_of (props : option WebSocketApiStackProps) : string :=
  js_or (optional props environmentName) "dev".

(** The condition of source line 53. *)
Definition uses_existing_vpc (props : option WebSocketApiStackProps) : bool :=
  is_false (optional props createVpc) && truthy (optional props vpcId).

(** The network the constructor needs can be had: either it builds one,
    or [ec2.Vpc.fromLookup] hands one back. *)
Definition vpc_resolves (lookupVpc : string -> string -> string -> option VpcAttributes)
    (props : option WebSocketApiStackProps) : Prop :=
  uses_existing_vpc props = true ->
  is_Some (lookupVpc (stack_account props) (stack_region props)
                     (js_or (optional props vpcId) "")).

Definition instance_of (g : Stack) (id : ConstructId) : option Instance :=
  find_child id as_instance (children g).
Definition loadBalancer_of (g : Stack) (id : ConstructId) : option ApplicationLoadBalancer :=
  find_child id as_loadBalancer (children g).
Definition targetGroup_of (g : Stack) (id : ConstructId) : option ApplicationTargetGroup :=
  find_child id as_targetGroup (children g).
Definition securityGroup_of (g : Stack) (id : ConstructId) : option SecurityGroup :=
  find_child id as_securityGroup (children g).
Definition role_of (g : Stack) (id : ConstructId) : option Role :=
  find_child id as_role (children g).
Definition vpc_of (g : Stack) (id : ConstructId) : option IVpc :=
  find_child id as_vpc (children g).

(** The compute instance and the entry point of the stack. *)
Definition compute_instance (g : Stack) : option Instance :=
  instance_of g "WebSocketApiInstance".
Definition entry_point (g : Stack) : option ApplicationLoadBalancer :=
  loadBalancer_of g "WebSocketALB".

(** The target groups the entry point's listeners forward to. *)
Definition target_bindings (g : Stack) : list (option ApplicationTargetGroup) :=
  match entry_point g with
  | Some a => flat_map (fun l => map (targetGroup_of g) (defaultTargetGroups l)) (listeners a)
  | None => []
  end.

(** The role and the security group of the compute instance; the
    security group of the entry point. *)
Definition compute_role (g : Stack) : option Role :=
  i ← compute_instance g; role_of g (inst_role i).
Definition compute_securityGroup (g : Stack) : option SecurityGroup :=
  i ← compute_instance g; securityGroup_of g (inst_securityGroup i).
Definition entry_securityGroup (g : Stack) : option SecurityGroup :=
  a ← entry_point g; securityGroup_of g (alb_securityGroup a).
(** The host configuration the compute instance boots with. *)
Definition host_configuration (g : Stack) : option UserData :=
  inst_userData <$> compute_instance g.

(* ================================================================== *)
(** ** Inputs used to exercise the composition *)
(* ================================================================== *)

(** A resolver that knows no network at all. *)
Definition no_network : string -> string -> string -> option VpcAttributes :=
  fun _ _ _ => None.

(** A resolver that knows one network of one account and region. *)
Definition one_network : string -> string -> string -> option VpcAttributes :=
  fun account region vpcId =>
    if (account =? "123456789012")%string && (region =? "eu-west-1")%string
       && (vpcId =? "vpc-0a1b2c3d")%string
    then Some {| attr_vpcId := "vpc-0a1b2c3d" |}
    else None.

(** A library that finds no fault with any construct. *)
Definition accept_all : ConstructId -> Construct -> bool := fun _ _ => true.

Definition props_of (environment : option string) (create : option bool)
    (existing : option string) : WebSocketApiStackProps :=
  {| stackName := None;
     description := None;
     env := None;
     tags := [];
     environmentName := environment;
     instanceType := None;
     createVpc := create;
     vpcId := existing |}.

(** [{ ...props, createVpc: b }] *)
Definition with_createVpc (b : option bool) (p : WebSocketApiStackProps)
  : WebSocketApiStackProps :=
  {| stackName := stackName p;
     description := description p;
     env := env p;
     tags := tags p;
     environmentName := environmentName p;
     instanceType := instanceType p;
     createVpc := b;
     vpcId := vpcId p |}.

(** Props that ask for the network [one_network] knows, for a stack of
    that account and region. *)
Definition existing_props (environment : option string) : WebSocketApiStackProps :=
  {| stackName := None;
     description := None;
     env := Some {| env_account := Some "123456789012";
                    env_region := Some "eu-west-1" |};
     tags := [];
     environmentName := environment;
     instanceType := None;
     createVpc := Some false;
     vpcId := Some "vpc-0a1b2c3d" |}.

(** The errors the library raises, as opposed to the scope's own. *)
Definition library_error (e : CompositionError) : bool :=
  match e with
  | Rejected _ | LookupThrew _ => true
  | DuplicateConstruct _ | NoSuchConstruct _ => false
  end.

(** A run in which the library itself raises nothing: it accepts every
    construct the constructor gives it and hands back the network asked
    for. *)
Definition no_library_error (accepts : ConstructId -> Construct -> bool)
    (lookupVpc : string -> string -> string -> option VpcAttributes)
    (props : option WebSocketApiStackProps) : Prop :=
  match compose accepts lookupVpc props with
  | Thrown e _ => library_error e = false
  | Returned _ _ => True
  end.

(* ================================================================== *)
(** ** Further readers of the construct tree and of the script *)
(* ================================================================== *)

Definition bucket_of (g : Stack) (id : ConstructId) : option Bucket :=
  find_child id as_bucket (children g).
Definition output_of (g : Stack) (id : ConstructId) : option CfnOutput :=
  find_child id as_output (children g).

(** The outputs of a stack, in declaration order. *)
Fixpoint outputs_in (cs : Children) : list (ConstructId * CfnOutput) :=
  match cs with
  | [] => []
  | (k, COutput o) :: rest => (k, o) :: outputs_in rest
  | _ :: rest => outputs_in rest
  end.

Definition outputs (g : Stack) : list (ConstructId * CfnOutput) := outputs_in (children g).

(** The outputs that are exported, with their export names. *)
Definition exports (g : Stack) : list (ConstructId * string) :=
  Text.filter_map (fun o => pair (fst o) <$> exportName (snd o)) (outputs g).

(** The kind of construct a reference expects. *)
Inductive Kind :=
| KVpc | KBucket | KRole | KSecurityGroup | KInstance | KLoadBalancer
| KTargetGroup | KOutput.

Definition has_kind (k : Kind) (c : Construct) : bool :=
  match k, c with
  | KVpc, CVpc _ | KBucket, CBucket _ | KRole, CRole _
  | KSecurityGroup, CSecurityGroup _ | KInstance, CInstance _
  | KLoadBalancer, CLoadBalancer _ | KTargetGroup, CTargetGroup _
  | KOutput, COutput _ => true
  | _, _ => false
  end.

Definition peer_references (p : Peer) : list (Kind * ConstructId) :=
  match p with
  | Peer_securityGroup sg => [ (KSecurityGroup, sg) ]
  | Peer_ipv4 _ => []
  end.

(** Every other construct a construct refers to. *)
Definition references (c : Construct) : list (Kind * ConstructId) :=
  match c with
  | CVpc _ | CBucket _ | COutput _ => []
  | CRole r => map (fun grant => (KBucket, snd grant)) (bucketGrants r)
  | CSecurityGroup sg =>
      (KVpc, sg_vpc sg) :: flat_map (fun r => peer_references (peer r)) (ingressRules sg)
  | CInstance i =>
      [ (KVpc, inst_vpc i); (KSecurityGroup, inst_securityGroup i); (KRole, inst_role i) ]
  | CLoadBalancer a =>
      (KVpc, alb_vpc a) :: (KSecurityGroup, alb_securityGroup a)
      :: flat_map (fun l => map (pair KTargetGroup) (defaultTargetGroups l)) (listeners a)
  | CTargetGroup t =>
      (KVpc, tg_vpc t) :: map (fun tgt => (KInstance, target_instance tgt)) (targets t)
  end.

Definition declared (cs : Children) (ref : Kind * ConstructId) : bool :=
  existsb (fun kc => (fst kc =? snd ref)%string && has_kind (fst ref) (snd kc)) cs.

(** No construct of the stack refers to a construct the stack lacks. *)
Definition well_linked (g : Stack) : bool :=
  forallb (fun kc => forallb (declared (children g)) (references (snd kc))) (children g).

(** The networks the constructs of a stack are placed in. *)
Definition networks_referred (g : Stack) : list ConstructId :=
  flat_map
    (fun kc => Text.filter_map
                 (fun ref => match fst ref with KVpc => Some (snd ref) | _ => None end)
                 (references (snd kc)))
    (children g).

Definition ingress_ports (sg : SecurityGroup) : list Port := map port (ingressRules sg).

(** All security groups of a stack. *)
Definition securityGroups (g : Stack) : list SecurityGroup :=
  Text.filter_map (fun kc => as_securityGroup (snd kc)) (children g).

(** The value a key is tagged with; a later [add] of the same key wins. *)
Fixpoint tag_value (key : string) (tgs : list (string * string)) : option string :=
  match tgs with
  | [] => None
  | (k, v) :: rest =>
      match tag_value key rest with
      | Some v' => Some v'
      | None => if (k =? key)%string then Some v else None
      end
  end.

(** The position of the first line equal to [line]. *)
Fixpoint index_of (line : string) (ls : list string) : option nat :=
  match ls with
  | [] => None
  | l :: rest => if (l =? line)%string then Some 0 else S <$> index_of line rest
  end.

(** The position of the first line starting with [p]. *)
Fixpoint index_of_prefix (p : string) (ls : list string) : option nat :=
  match ls with
  | [] => None
  | l :: rest => if String.prefix p l then Some 0 else S <$> index_of_prefix p rest
  end.

(** The text after the last occurrence of [c] (all of it when there is
    none), and the text before the first space. *)
Fixpoint after_last_from (c : ascii) (current s : string) : string :=
  match s with
  | EmptyString => current
  | String x s' =>
      if Ascii.eqb x c then after_last_from c s' s' else after_last_from c current s'
  end.

Definition after_last (c : ascii) (s : string) : string := after_last_from c s s.

Fixpoint first_word (s : string) : string :=
  match s with
  | EmptyString => EmptyString
  | String x s' => if Ascii.eqb x " " then EmptyString else String x (first_word s')
  end.

(** The port nginx listens on, the port of the one upstream server it
    forwards to, and the port the service is told to listen on. *)
Definition listen_port (conf : list string) : option N :=
  match Nginx.directive "listen" conf with
  | [ v ] => Text.decimal (first_word v)
  | _ => None
  end.

Definition upstream_port (conf : list string) : option N :=
  match Nginx.directive "server" conf with
  | [ v ] => Text.decimal (after_last ":" v)
  | _ => None
  end.

Definition service_port (unit_file : list string) : option N :=
  sec ← Systemd.section "Service" unit_file;
  url ← Systemd.environment "ASPNETCORE_URLS" sec;
  Text.decimal (after_last ":" url).

(** The arguments of every [systemctl] command of a script. *)
Definition systemctl_commands (script : list string) : list string :=
  Text.filter_map (Text.strip_prefix "systemctl ") script.

(** The positions at which two scripts differ. *)
Fixpoint differing_lines (n : nat) (a b : list string) : list nat :=
  match a, b with
  | x :: a', y :: b' =>
      if (x =? y)%string then differing_lines (S n) a' b'
      else n :: differing_lines (S n) a' b'
  | [], [] => []
  | _, _ => [n]
  end.

(** [{}] and [{ ...props, environmentName: e }] *)
Definition empty_props : WebSocketApiStackProps :=
  {| stackName := None;
     description := None;
     env := None;
     tags := [];
     environmentName := None;
     instanceType := None;
     createVpc := None;
     vpcId := None |}.

Definition with_environmentName (e : option string) (p : WebSocketApiStackProps)
  : WebSocketApiStackProps :=
  {| stackName := stackName p;
     description := description p;
     env := env p;
     tags := tags p;
     environmentName := e;
     instanceType := instanceType p;
     createVpc := createVpc p;
     vpcId := vpcId p |}.

(** [{ ...props, vpcId: v }] *)
Definition with_vpcId (v : option string) (p : WebSocketApiStackProps)
  : WebSocketApiStackProps :=
  {| stackName := stackName p;
     description := description p;
     env := env p;
     tags := tags p;
     environmentName := environmentName p;
     instanceType := instanceType p;
     createVpc := createVpc p;
     vpcId := v |}.



(** Two outcomes are the same, unless the first is a rejection by the
    library. *)
Definition same_unless_rejected {X} (o o' : Outcome X) : Prop :=
  o = o' \/ exists id s, o = Thrown (Rejected id) s.

(* ================================================================== *)
(** ** Runs that differ in the library's validation only *)
(* ================================================================== *)

Section Simulation.

Variable accepts : ConstructId -> Construct -> bool.

Lemma same_refl {X} (o : Outcome X) : same_unless_rejected o o.
Proof. left. reflexivity. Qed.

Lemma bind_same {X Y} (m m' : M X) (k k' : X -> M Y) s :
  same_unless_rejected (m s) (m' s) ->
  (forall x s', same_unless_rejected (k x s') (k' x s')) ->
  same_unless_rejected (bind m k s) (bind m' k' s).
Proof.
  intros [Hm | (id & s' & Hm)] Hk; unfold bind.
  - rewrite Hm. destruct (m' s) as [x s' | e s']; [ apply Hk | left; reflexivity ].
  - rewrite Hm. right. eauto.
Qed.

Lemma declare_same id c s :
  same_unless_rejected (declare accepts id c s) (declare accept_all id c s).
Proof.
  unfold declare, accept_all. destruct (child id (children s)); [ left; reflexivity | ].
  destruct (accepts id c); [ left; reflexivity | right; eauto ].
Qed.

Lemma mutate_same id f s :
  same_unless_rejected (mutate accepts id f s) (mutate accept_all id f s).
Proof.
  unfold mutate, accept_all.
  destruct (child id (children s) ≫= f) as [c |]; [ | left; reflexivity ].
  destruct (accepts id c); [ left; reflexivity | right; eauto ].
Qed.

End Simulation.

(** One step of the comparison of two runs. *)
Ltac same_step :=
  lazymatch goal with
  | |- same_unless_rejected (bind _ _ _) (bind _ _ _) =>
      apply bind_same; [ | intros ? ? ]
  | |- same_unless_rejected (declare _ _ _ _) (declare _ _ _ _) => apply declare_same
  | |- same_unless_rejected (mutate _ _ _ _) (mutate _ _ _ _) => apply mutate_same
  | |- same_unless_rejected ?o ?o => apply same_refl
  | |- same_unless_rejected (match ?l with _ => _ end _) _ => destruct l
  end.

(** Whatever the library's validation, the constructor runs as it does
    under a library that accepts everything, up to the first construct the
    library rejects. *)
Lemma compose_same accepts lookupVpc props :
  same_unless_rejected (compose accepts lookupVpc props)
                       (compose accept_all lookupVpc props).
Proof.
  unfold compose. generalize (Stack_super props) as s. intros s.
  cbv beta zeta delta [WebSocketApiStack_constructor].
  unfold new_Vpc, Vpc_fromLookup, vpcId_of, new_Bucket, new_Role, grantRead,
    new_SecurityGroup, addIngressRule, new_Instance, Tags_add,
    new_ApplicationLoadBalancer, addListener, new_ApplicationTargetGroup,
    setAttribute, new_CfnOutput.
  unfold mbind, M_bind, mret, M_ret.
  destruct (is_false (optional props createVpc) && truthy (optional props vpcId));
    repeat same_step.
Qed.

Lemma compose_without_library_error accepts lookupVpc props :
  no_library_error accepts lookupVpc props ->
  compose accepts lookupVpc props = compose accept_all lookupVpc props.
Proof.
  unfold no_library_error. intros Hlib.
  destruct (compose_same accepts lookupVpc props) as [Hsame | (id & s & Hrej)].
  - exact Hsame.
  - rewrite Hrej in Hlib. discriminate Hlib.
Qed.

(** When [fromLookup] throws, so does the constructor, before it has
    declared anything. *)
Lemma compose_lookup_throws accepts lookupVpc props :
  uses_existing_vpc props = true ->
  lookupVpc (stack_account props) (stack_region props)
            (js_or (optional props vpcId) "") = None ->
  compose accepts lookupVpc props
  = Thrown (LookupThrew (js_or (optional props vpcId) "")) (Stack_super props).
Proof.
  intros Huse Hnone.
  unfold compose.
  cbv beta zeta delta [WebSocketApiStack_constructor Vpc_fromLookup].
  change (is_false (optional props createVpc) && truthy (optional props vpcId))
    with (uses_existing_vpc props).
  rewrite Huse.
  cbv [mbind M_bind bind this_account this_region account region Stack_super].
  rewrite Hnone. reflexivity.
Qed.

Lemma no_library_error_resolves accepts lookupVpc props :
  no_library_error accepts lookupVpc props -> vpc_resolves lookupVpc props.
Proof.
  intros Hlib Huse.
  destruct (lookupVpc (stack_account props) (stack_region props)
                      (js_or (optional props vpcId) "")) as [a |] eqn:Hlk.
  - eexists. reflexivity.
  - unfold no_library_error in Hlib.
    rewrite (compose_lookup_throws accepts lookupVpc props Huse Hlk) in Hlib.
    discriminate Hlib.
Qed.

(** When the constructor builds its own network it never consults
    [fromLookup]. *)
Lemma compose_ignores_resolver accepts lookup1 lookup2 props :
  uses_existing_vpc props = false ->
  compose accepts lookup1 props = compose accepts lookup2 props.
Proof.
  intros Huse. unfold compose.
  cbv beta zeta delta [WebSocketApiStack_constructor].
  change (is_false (optional props createVpc) && truthy (optional props vpcId))
    with (uses_existing_vpc props).
  rewrite Huse. reflexivity.
Qed.

(* ================================================================== *)
(** ** Running the constructor *)
(* ================================================================== *)

(** The constructor branches once, on the network.  [name_the_data] names
    everything the rest of the body treats as data (the environment name,
    the script lines, the account and region, the instance type). *)
Ltac name_the_data props :=
  unfold compose;
  cbv beta zeta delta [WebSocketApiStack_constructor Vpc_fromLookup Stack_super];
  change (js_or (optional props environmentName) "dev") with (envName_of props);
  change (is_false (optional props createVpc) && truthy (optional props vpcId))
    with (uses_existing_vpc props);
  let en := fresh "en" in
  let cmds := fresh "cmds" in
  let Hen := fresh "Hen" in
  let Hcmds := fresh "Hcmds" in
  remember (envName_of props) as en eqn:Hen;
  remember (userData_commands en) as cmds eqn:Hcmds;
  generalize dependent (js_or (optional props vpcId) "");
  generalize (stack_account props) (stack_region props)
    (optional props stackName) (optional props description)
    (from_option tags [] props)
    (js_nullish (optional props instanceType) (InstanceType_of T3 SMALL));
  intros ? ? ? ? ? ? ?.

(** In a run in which the library raises nothing, [enter_constructor]
    drops the library's validation, names the data, splits on the network
    branch and feeds in the network [fromLookup] hands back.  The
    straight-line remainder then runs by computation. *)
Ltac enter_constructor props Hlib :=
  let Hvpc := fresh "Hvpc" in
  pose proof (no_library_error_resolves _ _ _ Hlib) as Hvpc;
  rewrite (compose_without_library_error _ _ _ Hlib);
  clear Hlib;
  unfold vpc_resolves in Hvpc;
  name_the_data props;
  let a := fresh "a" in
  let Ha := fresh "Ha" in
  intros Hvpc;
  destruct (uses_existing_vpc props);
  [ destruct (Hvpc eq_refl) as [a Ha];
    cbv [mbind M_bind bind this_account this_region account region];
    rewrite Ha
  | ];
  clear Hvpc.

Ltac run_constructor :=
  eexists; split; [ vm_compute; reflexivity | ].

(** The same, when the statement goes on to name a part of the tree. *)
Ltac run_constructor_then_read :=
  do 2 eexists; split; [ vm_compute; reflexivity | ];
  split; [ vm_compute; reflexivity | ].

(** Under a library that accepts everything the constructor throws: in
    [fromLookup], or at the output it declares under the identifier the
    bucket already has. *)
Lemma compose_accept_all_throws lookupVpc props :
  exists e s,
    compose accept_all lookupVpc props = Thrown e s /\
    (library_error e = true \/ e = DuplicateConstruct "DeploymentBucket").
Proof.
  destruct (uses_existing_vpc props) eqn:Huse.
  - destruct (lookupVpc (stack_account props) (stack_region props)
                        (js_or (optional props vpcId) "")) as [a |] eqn:Hlk.
    + revert Hlk Huse. name_the_data props. intros Hlk Huse. rewrite Huse.
      cbv [mbind M_bind bind this_account this_region account region].
      rewrite Hlk. do 2 eexists. split; [ vm_compute; reflexivity | right; reflexivity ].
    + rewrite (compose_lookup_throws accept_all lookupVpc props Huse Hlk).
      do 2 eexists. split; [ reflexivity | left; reflexivity ].
  - revert Huse. name_the_data props. intros Huse. rewrite Huse.
    do 2 eexists. split; [ vm_compute; reflexivity | right; reflexivity ].
Qed.

Lemma compose_throws accepts lookupVpc props :
  exists e s,
    compose accepts lookupVpc props = Thrown e s /\
    (library_error e = true \/ e = DuplicateConstruct "DeploymentBucket").
Proof.
  destruct (compose_same accepts lookupVpc props) as [Hsame | (id & s & Hrej)].
  - rewrite Hsame. apply compose_accept_all_throws.
  - exists (Rejected id), s. split; [ exact Hrej | left; reflexivity ].
Qed.

Lemma compose_never_returns accepts lookupVpc props fields s :
  compose accepts lookupVpc props <> Returned fields s.
Proof.
  destruct (compose_throws accepts lookupVpc props) as (e & s' & Hthrown & _).
  rewrite Hthrown. discriminate.
Qed.

(* ================================================================== *)
(** ** The bootstrap script, read back

    The script is the argument list of the one [userData.addCommands(...)]
    call, instantiated at the environment name.  Only one of its lines
    mentions the environment; the readers never get past that line's
    first characters unless they ask for it. *)
(* ================================================================== *)

Ltac read_script envName :=
  unfold userData_commands;
  generalize (aspnetcoreEnvironment envName); intros mode;
  vm_compute; reflexivity.

(** C1. For every environment name, the reverse-proxy configuration
    written by the bootstrap script gives its [/ws] route a read timeout
    of exactly 86400 seconds; the value is the same whatever the
    environment. *)
Theorem ws_route_read_timeout (envName : string) :
  reverse_proxy_config (addCommands (userData_commands envName) UserData_forLinux)
    ≫= Nginx.read_timeout "/ws"
  = Some 86400%N.
Proof. read_script envName. Qed.

(** C7. For every environment name, the supervision unit written by the
    bootstrap script restarts the service on any exit ([Restart=always])
    after a fixed delay of 10 seconds; neither varies with the
    environment. *)
Theorem supervision_restart_policy (envName : string) :
  supervision_unit (addCommands (userData_commands envName) UserData_forLinux)
    ≫= Systemd.restart
  = Some Systemd.RestartAlways
  /\ supervision_unit (addCommands (userData_commands envName) UserData_forLinux)
       ≫= Systemd.restart_sec
     = Some 10%N.
Proof. split; read_script envName. Qed.

Lemma script_exec_start envName :
  supervision_unit (addCommands (userData_commands envName) UserData_forLinux)
    ≫= Systemd.exec_start
  = Some "/usr/bin/dotnet /var/www/websocketapi/WebSocketApi.dll".
Proof. read_script envName. Qed.

Lemma script_routes envName :
  Nginx.locations
    <$> reverse_proxy_config (addCommands (userData_commands envName) UserData_forLinux)
  = Some ["/"; "/ws"; "/health"]
  /\ reverse_proxy_config (addCommands (userData_commands envName) UserData_forLinux)
       ≫= Nginx.access_log "/health"
     = Some "off".
Proof. split; read_script envName. Qed.

Lemma script_logging envName :
  Shell.log_path (lines (addCommands (userData_commands envName) UserData_forLinux))
  = Some "/var/log/user-data.log"
  /\ Shell.enabled_units (lines (addCommands (userData_commands envName) UserData_forLinux))
     = ["websocketapi"].
Proof. split; read_script envName. Qed.

(** The two [Environment=] assignments of the unit.  Here the reader does
    look at the environment-dependent line, so the two modes are run
    separately. *)
Lemma script_service_environment envName :
  exists sec,
    supervision_unit (addCommands (userData_commands envName) UserData_forLinux)
      ≫= Systemd.section "Service" = Some sec
    /\ Systemd.environment "ASPNETCORE_URLS" sec = Some "http://0.0.0.0:5000"
    /\ Systemd.environment "ASPNETCORE_ENVIRONMENT" sec
       = Some (aspnetcoreEnvironment envName).
Proof.
  unfold userData_commands, aspnetcoreEnvironment.
  destruct (envName =? "prod")%string;
    (eexists; split; [ vm_compute; reflexivity | split; vm_compute; reflexivity ]).
Qed.

Lemma aspnetcoreEnvironment_prod envName :
  aspnetcoreEnvironment envName = "Production" <-> envName = "prod".
Proof.
  unfold aspnetcoreEnvironment.
  destruct (String.eqb_spec envName "prod") as [-> | Hne]; split; intros H;
    try reflexivity; try discriminate H; contradiction.
Qed.

Lemma aspnetcoreEnvironment_other envName :
  aspnetcoreEnvironment envName = "Development" <-> envName <> "prod".
Proof.
  unfold aspnetcoreEnvironment.
  destruct (String.eqb_spec envName "prod") as [-> | Hne]; split; intros H;
    try reflexivity; try discriminate H; try assumption.
  - contradiction.
Qed.

(** C8. For every environment name, the host configuration carries the
    fixed contract: a supervision unit [websocketapi] (written to its unit
    file and enabled) that launches
    [/var/www/websocketapi/WebSocketApi.dll], the listen address
    [0.0.0.0:5000], reverse-proxy routes [/], [/ws] and [/health] and no
    other, with request logging off on [/health], the log path
    [/var/log/user-data.log], and an execution-mode flag that is
    [Production] exactly when the environment is [prod] and [Development]
    otherwise. *)
Theorem host_configuration_contract (envName : string) :
  exists sec,
    Shell.enabled_units (lines (addCommands (userData_commands envName) UserData_forLinux))
    = ["websocketapi"] /\
    supervision_unit (addCommands (userData_commands envName) UserData_forLinux)
      ≫= Systemd.exec_start
    = Some "/usr/bin/dotnet /var/www/websocketapi/WebSocketApi.dll" /\
    supervision_unit (addCommands (userData_commands envName) UserData_forLinux)
      ≫= Systemd.section "Service" = Some sec /\
    Systemd.environment "ASPNETCORE_URLS" sec = Some "http://0.0.0.0:5000" /\
    Nginx.locations
      <$> reverse_proxy_config (addCommands (userData_commands envName) UserData_forLinux)
    = Some ["/"; "/ws"; "/health"] /\
    reverse_proxy_config (addCommands (userData_commands envName) UserData_forLinux)
      ≫= Nginx.access_log "/health" = Some "off" /\
    Shell.log_path (lines (addCommands (userData_commands envName) UserData_forLinux))
    = Some "/var/log/user-data.log" /\
    (envName = "prod" ->
       Systemd.environment "ASPNETCORE_ENVIRONMENT" sec = Some "Production") /\
    (envName <> "prod" ->
       Systemd.environment "ASPNETCORE_ENVIRONMENT" sec = Some "Development").
Proof.
  destruct (script_service_environment envName) as (sec & Hsec & Hurls & Hmode).
  destruct (script_routes envName) as [Hroutes Hlog].
  destruct (script_logging envName) as [Hpath Henabled].
  exists sec.
  split; [ exact Henabled | ].
  split; [ apply script_exec_start | ].
  split; [ exact Hsec | ]. split; [ exact Hurls | ].
  split; [ exact Hroutes | ]. split; [ exact Hlog | ]. split; [ exact Hpath | ].
  rewrite Hmode. split; intros Henv; f_equal.
  - apply aspnetcoreEnvironment_prod. exact Henv.
  - apply aspnetcoreEnvironment_other. exact Henv.
Qed.

Lemma host_configuration_contract_witness :
  exists sec,
    supervision_unit (addCommands (userData_commands "prod") UserData_forLinux)
      ≫= Systemd.section "Service" = Some sec /\
    Systemd.environment "ASPNETCORE_ENVIRONMENT" sec = Some "Production".
Proof.
  destruct (host_configuration_contract "prod")
    as (sec & _ & _ & Hsec & _ & _ & _ & _ & Hprod & _).
  exists sec. split; [ exact Hsec | ]. apply Hprod. reflexivity.
Defined.

Lemma userData_commands_not_prod envName :
  envName <> "prod" -> userData_commands envName = userData_commands "dev".
Proof.
  intros Hne. unfold userData_commands.
  rewrite (proj2 (aspnetcoreEnvironment_other envName) Hne). reflexivity.
Qed.

(** X16. Only [prod] changes the host configuration: any two environment
    names other than [prod] give the same script, line for line, and the
    script of [prod] differs from theirs in a single line, the one that
    sets the execution mode. *)
Theorem only_prod_changes_the_script (envName1 envName2 : string) :
  envName2 <> "prod" ->
  (envName1 <> "prod" -> userData_commands envName1 = userData_commands envName2) /\
  (envName1 = "prod" ->
     differing_lines 0 (userData_commands envName1) (userData_commands envName2) = [ 42 ]
     /\ nth_error (userData_commands envName1) 42
        = Some "Environment=ASPNETCORE_ENVIRONMENT=Production"
     /\ nth_error (userData_commands envName2) 42
        = Some "Environment=ASPNETCORE_ENVIRONMENT=Development").
Proof.
  intros Hne2. rewrite (userData_commands_not_prod _ Hne2). split.
  - intros Hne1. apply userData_commands_not_prod. exact Hne1.
  - intros ->. repeat split; vm_compute; reflexivity.
Qed.

Lemma only_prod_changes_the_script_witness :
  userData_commands "staging" = userData_commands "qa"
  /\ differing_lines 0 (userData_commands "prod") (userData_commands "qa") = [ 42 ].
Proof.
  destruct (only_prod_changes_the_script "staging" "qa") as [Hsame _].
  - vm_compute. intros H. discriminate H.
  - destruct (only_prod_changes_the_script "prod" "qa") as [_ Hprod].
    + vm_compute. intros H. discriminate H.
    + split.
      * apply Hsame. vm_compute. intros H. discriminate H.
      * apply Hprod. reflexivity.
Defined.

(** X17. The script reloads systemd, enables the [websocketapi] unit and
    restarts nginx, and issues no other [systemctl] command: it never
    starts the service it has just set up. *)
Theorem script_never_starts_the_service (envName : string) :
  systemctl_commands (lines (addCommands (userData_commands envName) UserData_forLinux))
  = [ "daemon-reload"; "enable websocketapi"; "restart nginx" ]
  /\ ~ In "start websocketapi"
       (systemctl_commands (lines (addCommands (userData_commands envName) UserData_forLinux)))
  /\ ~ In "restart websocketapi"
       (systemctl_commands (lines (addCommands (userData_commands envName) UserData_forLinux))).
Proof.
  assert (Hcommands :
            systemctl_commands
              (lines (addCommands (userData_commands envName) UserData_forLinux))
            = [ "daemon-reload"; "enable websocketapi"; "restart nginx" ])
    by read_script envName.
  rewrite Hcommands.
  repeat split; simpl; intros H; intuition discriminate.
Qed.

(** X18. The script is fail-fast and logged from the start: [set -e] and
    the two redirections to the log come before the first command that
    installs anything.  The runtime is installed and linked into the path
    before it is probed ([dotnet --version]), the probe comes before the
    unit file is written, and the nginx configuration is tested
    ([nginx -t]) on the line right before nginx is restarted. *)
Theorem script_is_ordered (envName : string) :
  exists fail_fast log_out log_err first_install runtime_install runtime_link
         probe unit_file test restart,
    let script := lines (addCommands (userData_commands envName) UserData_forLinux) in
    index_of "set -e" script = Some fail_fast /\
    index_of "exec > >(tee /var/log/user-data.log)" script = Some log_out /\
    index_of "exec 2>&1" script = Some log_err /\
    index_of_prefix "apt-get " script = Some first_install /\
    index_of "/tmp/dotnet-install.sh --channel 8.0 --install-dir /usr/share/dotnet" script
    = Some runtime_install /\
    index_of "ln -sf /usr/share/dotnet/dotnet /usr/bin/dotnet" script = Some runtime_link /\
    index_of "dotnet --version" script = Some probe /\
    index_of_prefix "cat > /etc/systemd/system/" script = Some unit_file /\
    index_of "nginx -t" script = Some test /\
    index_of "systemctl restart nginx" script = Some restart /\
    fail_fast < log_out < log_err /\
    log_err < first_install < runtime_install /\
    runtime_install < runtime_link < probe /\
    probe < unit_file /\
    S test = restart.
Proof.
  exists 1, 2, 3, 8, 17, 18, 21, 28, 98, 99. cbv zeta.
  unfold userData_commands.
  generalize (aspnetcoreEnvironment envName); intros mode.
  repeat (split; [ vm_compute; reflexivity | ]).
  lia.
Qed.

(** X19. In the reverse-proxy configuration of every environment the
    default route and the [/ws] route both speak HTTP/1.1 to the service
    and forward the [Upgrade] header; the default route reads for at most
    300 seconds and connects within 75; the [/health] route only proxies
    to the service's [/health], with no header forwarded and no timeout
    of its own. *)
Theorem reverse_proxy_routes (envName : string) :
  exists conf root ws health,
    reverse_proxy_config (addCommands (userData_commands envName) UserData_forLinux)
    = Some conf
    /\ Nginx.location "/" conf = Some root
    /\ Nginx.location "/ws" conf = Some ws
    /\ Nginx.location "/health" conf = Some health
    /\ Nginx.directive "proxy_pass" root = [ "http://websocketapi" ]
    /\ Nginx.directive "proxy_pass" ws = [ "http://websocketapi/ws" ]
    /\ Nginx.directive "proxy_pass" health = [ "http://websocketapi/health" ]
    /\ Nginx.read_timeout "/" conf = Some 300%N
    /\ map Nginx.time (Nginx.directive "proxy_connect_timeout" root) = [ Some 75%N ]
    /\ Nginx.directive "proxy_connect_timeout" ws = []
    /\ In "Upgrade $http_upgrade" (Nginx.directive "proxy_set_header" root)
    /\ In "Upgrade $http_upgrade" (Nginx.directive "proxy_set_header" ws)
    /\ Nginx.directive "proxy_http_version" root = [ "1.1" ]
    /\ Nginx.directive "proxy_http_version" ws = [ "1.1" ]
    /\ Nginx.directive "proxy_set_header" health = []
    /\ Nginx.directive "proxy_read_timeout" health = [].
Proof.
  unfold userData_commands.
  generalize (aspnetcoreEnvironment envName); intros mode.
  do 4 eexists.
  repeat (split; [ vm_compute; reflexivity | ]).
  repeat (split; [ vm_compute; tauto | ]).
  repeat split; vm_compute; reflexivity.
Qed.

(** What the script says about ports, whatever the environment. *)
Lemma script_ports envName :
  reverse_proxy_config (addCommands (userData_commands envName) UserData_forLinux)
    ≫= listen_port = Some 80%N
  /\ reverse_proxy_config (addCommands (userData_commands envName) UserData_forLinux)
       ≫= upstream_port = Some 5000%N
  /\ supervision_unit (addCommands (userData_commands envName) UserData_forLinux)
       ≫= service_port = Some 5000%N.
Proof.
  unfold userData_commands.
  generalize (aspnetcoreEnvironment envName); intros mode.
  repeat split; vm_compute; reflexivity.
Qed.

Lemma script_serves envName (route : string) :
  route = "/health" \/ route = "/ws" ->
  exists conf block,
    reverse_proxy_config (addCommands (userData_commands envName) UserData_forLinux)
    = Some conf
    /\ In route (Nginx.locations conf)
    /\ Nginx.location route conf = Some block
    /\ Nginx.directive "proxy_pass" block = [ "http://websocketapi" +:+ route ].
Proof.
  unfold userData_commands.
  generalize (aspnetcoreEnvironment envName); intros mode.
  intros [-> | ->]; do 2 eexists;
    (split; [ vm_compute; reflexivity | ]);
    (split; [ vm_compute; tauto | ]);
    split; vm_compute; reflexivity.
Qed.

(* ================================================================== *)
(** ** The construct tree when the constructor throws

    The constructor never returns (see [compose_never_returns]).  In a
    run in which the library raises nothing it throws at source line 376,
    where it declares an output under the identifier [DeploymentBucket]
    that the bucket of line 82 already has.  The statements below are
    about the construct tree at that point: everything the constructor
    has declared and wired in lines 51-374. *)
(* ================================================================== *)

(** X2. The constructor never completes.  Whatever the props and whatever
    the library does, the run ends in a throw: one of the library's own
    (a construct it rejects, a lookup that throws), or else the scope's
    refusal of the second child named [DeploymentBucket]. *)
Theorem constructor_always_throws accepts lookupVpc props :
  (forall fields s, compose accepts lookupVpc props <> Returned fields s) /\
  exists e s,
    compose accepts lookupVpc props = Thrown e s /\
    (library_error e = true \/ e = DuplicateConstruct "DeploymentBucket") /\
    (no_library_error accepts lookupVpc props -> e = DuplicateConstruct "DeploymentBucket").
Proof.
  split; [ intros fields s; apply compose_never_returns | ].
  destruct (compose_throws accepts lookupVpc props) as (e & s & Hthrown & Hwhich).
  exists e, s. split; [ exact Hthrown | ]. split; [ exact Hwhich | ].
  unfold no_library_error. rewrite Hthrown. intros Hlib.
  destruct Hwhich as [Hliberr | Hdup]; [ congruence | exact Hdup ].
Qed.

(** X24. When the constructor throws at line 376 the compute instance is
    in the tree, and the user data it was given is the bootstrap script
    instantiated at the environment name of the props. *)
Theorem instance_boots_with_the_script accepts lookupVpc props :
  no_library_error accepts lookupVpc props ->
  exists s,
    compose accepts lookupVpc props = Thrown (DuplicateConstruct "DeploymentBucket") s /\
    host_configuration s
    = Some (addCommands (userData_commands (envName_of props)) UserData_forLinux).
Proof.
  intros Hlib. enter_constructor props Hlib; run_constructor;
    subst cmds; generalize (userData_commands en); intros cmds;
    vm_compute; reflexivity.
Qed.

Lemma instance_boots_with_the_script_witness :
  exists s,
    compose accept_all no_network (Some (props_of (Some "prod") None None))
    = Thrown (DuplicateConstruct "DeploymentBucket") s /\
    host_configuration s = Some (addCommands (userData_commands "prod") UserData_forLinux).
Proof.
  apply (instance_boots_with_the_script accept_all no_network
           (Some (props_of (Some "prod") None None))).
  vm_compute. reflexivity.
Defined.

(* ================================================================== *)
(** ** The traffic admission layer *)
(* ================================================================== *)

(** C6. For every environment, the one target group the entry point
    forwards to has the compute instance as its target and probes
    [/health] every 30 seconds with a 5-second timeout, admitting after 2
    consecutive successes and evicting after 3 consecutive failures. *)
Theorem health_check_policy accepts lookupVpc props :
  no_library_error accepts lookupVpc props ->
  exists s tg,
    compose accepts lookupVpc props = Thrown (DuplicateConstruct "DeploymentBucket") s /\
    target_bindings s = [Some tg] /\
    targets tg = [mkInstanceTarget "WebSocketApiInstance" 80] /\
    hc_enabled (healthCheck tg) = true /\
    path (healthCheck tg) = "/health" /\
    toSeconds (interval (healthCheck tg)) = 30%N /\
    toSeconds (timeout (healthCheck tg)) = 5%N /\
    healthyThresholdCount (healthCheck tg) = 2%N /\
    unhealthyThresholdCount (healthCheck tg) = 3%N.
Proof.
  intros Hlib. enter_constructor props Hlib; run_constructor_then_read;
    cbn [targets healthCheck hc_enabled path interval timeout
         healthyThresholdCount unhealthyThresholdCount];
    repeat split; reflexivity.
Qed.

Lemma health_check_policy_witness :
  exists s tg,
    compose accept_all no_network None = Thrown (DuplicateConstruct "DeploymentBucket") s /\
    target_bindings s = [Some tg] /\
    path (healthCheck tg) = "/health" /\
    toSeconds (interval (healthCheck tg)) = 30%N /\
    toSeconds (timeout (healthCheck tg)) = 5%N /\
    healthyThresholdCount (healthCheck tg) = 2%N /\
    unhealthyThresholdCount (healthCheck tg) = 3%N.
Proof.
  destruct (health_check_policy accept_all no_network None)
    as (s & tg & Hs & Htg & _ & _ & Hp & Hi & Ht & Hh & Hu).
  - vm_compute. reflexivity.
  - exists s, tg. repeat split; assumption.
Defined.

(** What the two [setAttribute] calls leave in an attribute map. *)
Lemma stickiness_attributes (m : gmap string string) :
  let m' := <["stickiness.type" := "lb_cookie"]> (<["stickiness.enabled" := "true"]> m) in
  m' !! "stickiness.enabled" = Some "true" /\ m' !! "stickiness.type" = Some "lb_cookie".
Proof.
  simpl. split.
  - rewrite lookup_insert_ne by discriminate. apply lookup_insert_eq.
  - apply lookup_insert_eq.
Qed.

(** C2. For every environment, the target group between the entry point
    and the compute instance has stickiness enabled, of the
    load-balancer-generated cookie kind, with a cookie lifetime of exactly
    one hour. *)
Theorem stickiness_policy accepts lookupVpc props :
  no_library_error accepts lookupVpc props ->
  exists s tg,
    compose accepts lookupVpc props = Thrown (DuplicateConstruct "DeploymentBucket") s /\
    target_bindings s = [Some tg] /\
    targets tg = [mkInstanceTarget "WebSocketApiInstance" 80] /\
    attributes tg !! "stickiness.enabled" = Some "true" /\
    attributes tg !! "stickiness.type" = Some "lb_cookie" /\
    stickinessCookieDuration tg = Some (Duration_hours 1) /\
    toSeconds <$> stickinessCookieDuration tg = Some 3600%N.
Proof.
  intros Hlib. enter_constructor props Hlib; run_constructor_then_read;
    (split; [ reflexivity | ]);
    match goal with
    | |- attributes ?t !! _ = _ /\ attributes ?t !! _ = _ /\ _ =>
        replace (attributes t)
          with (<["stickiness.type" := "lb_cookie"]>
                  (<["stickiness.enabled" := "true"]> (∅ : gmap string string)))
          by (vm_compute; reflexivity)
    end;
    destruct (stickiness_attributes ∅) as [Henabled Hkind];
    (split; [ exact Henabled | ]); (split; [ exact Hkind | ]);
    split; reflexivity.
Qed.

Lemma stickiness_policy_witness :
  exists s tg,
    compose accept_all no_network None = Thrown (DuplicateConstruct "DeploymentBucket") s /\
    target_bindings s = [Some tg] /\
    attributes tg !! "stickiness.enabled" = Some "true" /\
    attributes tg !! "stickiness.type" = Some "lb_cookie" /\
    toSeconds <$> stickinessCookieDuration tg = Some 3600%N.
Proof.
  destruct (stickiness_policy accept_all no_network None)
    as (s & tg & Hs & Htg & _ & He & Hk & _ & Hd).
  - vm_compute. reflexivity.
  - exists s, tg. repeat split; assumption.
Defined.

(* ================================================================== *)
(** ** Identity and permission edges *)
(* ================================================================== *)

(** C3, as stated, fails: the role of the compute instance carries a third
    grant, the managed policy [CloudWatchAgentServerPolicy], which is
    neither remote-session access nor read access to the artifact
    store. *)
Lemma compute_role_has_a_third_grant :
  exists s r,
    compose accept_all no_network None = Thrown (DuplicateConstruct "DeploymentBucket") s /\
    compute_role s = Some r /\
    length (capability_grants r) = 3 /\
    ~ (forall x, In x (capability_grants r) ->
         x = ManagedPolicy "AmazonSSMManagedInstanceCore"
         \/ x = BucketGrant GrantRead "DeploymentBucket").
Proof.
  do 2 eexists. split; [ vm_compute; reflexivity | ].
  split; [ vm_compute; reflexivity | ].
  split; [ reflexivity | ].
  intros Hall.
  destruct (Hall (ManagedPolicy "CloudWatchAgentServerPolicy")) as [H | H].
  - simpl. right. left. reflexivity.
  - discriminate H.
  - discriminate H.
Qed.

(** C3, amended. For every environment, the role of the compute instance
    carries exactly three grants: the managed policies
    [AmazonSSMManagedInstanceCore] (remote-session access) and
    [CloudWatchAgentServerPolicy] (monitoring agent), and read access to
    the deployment bucket; every grant on the bucket is read-only. *)
Theorem compute_role_grants accepts lookupVpc props :
  no_library_error accepts lookupVpc props ->
  exists s r,
    compose accepts lookupVpc props = Thrown (DuplicateConstruct "DeploymentBucket") s /\
    compute_role s = Some r /\
    capability_grants r
    = [ ManagedPolicy "AmazonSSMManagedInstanceCore";
        ManagedPolicy "CloudWatchAgentServerPolicy";
        BucketGrant GrantRead "DeploymentBucket" ] /\
    is_Some (find_child "DeploymentBucket" as_bucket (children s)) /\
    Forall (fun grant => read_only (fst grant) = true) (bucketGrants r).
Proof.
  intros Hlib. enter_constructor props Hlib; run_constructor_then_read;
    (split; [ reflexivity | ]);
    (split; [ eexists; vm_compute; reflexivity | ]);
    cbn [bucketGrants]; repeat constructor.
Qed.

Lemma compute_role_grants_witness :
  exists s r,
    compose accept_all no_network (Some (props_of (Some "prod") None None))
    = Thrown (DuplicateConstruct "DeploymentBucket") s /\
    compute_role s = Some r /\
    capability_grants r
    = [ ManagedPolicy "AmazonSSMManagedInstanceCore";
        ManagedPolicy "CloudWatchAgentServerPolicy";
        BucketGrant GrantRead "DeploymentBucket" ].
Proof.
  destruct (compute_role_grants accept_all no_network
              (Some (props_of (Some "prod") None None)))
    as (s & r & Hs & Hr & Hgrants & _).
  - vm_compute. reflexivity.
  - exists s, r. repeat split; assumption.
Defined.

(** C4. For every environment, every ingress rule of the compute
    instance's security group has the entry point's security group as its
    source, none has the any-address source, and the entry point's
    security group admits TCP 80 and TCP 443 from any IPv4 address. *)
Theorem permission_edges accepts lookupVpc props :
  no_library_error accepts lookupVpc props ->
  exists s a,
    compose accepts lookupVpc props = Thrown (DuplicateConstruct "DeploymentBucket") s /\
    entry_point s = Some a /\
    exists compute_sg entry_sg,
      compute_securityGroup s = Some compute_sg /\
      entry_securityGroup s = Some entry_sg /\
      ingressRules compute_sg <> [] /\
      Forall (fun r => peer r = Peer_securityGroup (alb_securityGroup a))
             (ingressRules compute_sg) /\
      Forall (fun r => peer r <> Peer_anyIpv4) (ingressRules compute_sg) /\
      In (mkIngressRule Peer_anyIpv4 (Port_tcp 80) "Allow HTTP traffic from anywhere")
         (ingressRules entry_sg) /\
      In (mkIngressRule Peer_anyIpv4 (Port_tcp 443) "Allow HTTPS traffic from anywhere")
         (ingressRules entry_sg).
Proof.
  intros Hlib. enter_constructor props Hlib; run_constructor_then_read;
    do 2 eexists;
    (split; [ vm_compute; reflexivity | ]);
    (split; [ vm_compute; reflexivity | ]);
    cbn [ingressRules alb_securityGroup];
    (split; [ discriminate | ]);
    (split; [ repeat constructor | ]);
    (split; [ repeat (constructor; [ cbn [peer]; discriminate | ]); constructor | ]);
    split; simpl; tauto.
Qed.

Lemma permission_edges_witness :
  exists s compute_sg,
    compose accept_all no_network None = Thrown (DuplicateConstruct "DeploymentBucket") s /\
    compute_securityGroup s = Some compute_sg /\
    Forall (fun r => peer r <> Peer_anyIpv4) (ingressRules compute_sg).
Proof.
  destruct (permission_edges accept_all no_network None)
    as (s & a & Hs & _ & csg & esg & Hc & _ & _ & _ & Hnone & _).
  - vm_compute. reflexivity.
  - exists s, csg. repeat split; assumption.
Defined.

(** C5. The compute instance is given the subnets of type
    private-with-egress of the stack's network and the entry point those
    of type public, both of the same network; the instance is not given
    the public ones.  The network the constructor builds itself has a
    subnet group of each of the two types. *)
Theorem subnet_placement accepts lookupVpc props :
  no_library_error accepts lookupVpc props ->
  exists s i a,
    compose accepts lookupVpc props = Thrown (DuplicateConstruct "DeploymentBucket") s /\
    compute_instance s = Some i /\
    entry_point s = Some a /\
    inst_vpcSubnets i = mkSubnetSelection PRIVATE_WITH_EGRESS /\
    alb_vpcSubnets a = mkSubnetSelection PUBLIC /\
    sel_subnetType (inst_vpcSubnets i) <> PUBLIC /\
    inst_vpc i = alb_vpc a /\
    exists network,
      vpc_of s (inst_vpc i) = Some network /\
      forall built, network = Vpc_new built ->
        In (sel_subnetType (inst_vpcSubnets i)) (map subnetType (subnetConfiguration built))
        /\ In (sel_subnetType (alb_vpcSubnets a)) (map subnetType (subnetConfiguration built)).
Proof.
  intros Hlib. enter_constructor props Hlib;
    do 3 eexists;
    (split; [ vm_compute; reflexivity | ]);
    (split; [ vm_compute; reflexivity | ]);
    (split; [ vm_compute; reflexivity | ]);
    cbn [inst_vpcSubnets alb_vpcSubnets sel_subnetType inst_vpc alb_vpc];
    (split; [ reflexivity | ]); (split; [ reflexivity | ]);
    (split; [ discriminate | ]); (split; [ reflexivity | ]);
    eexists; (split; [ vm_compute; reflexivity | ]);
    intros built Hbuilt; [ discriminate Hbuilt | ];
    injection Hbuilt as <-; split; simpl; tauto.
Qed.

Lemma subnet_placement_witness :
  exists s i,
    compose accept_all no_network None = Thrown (DuplicateConstruct "DeploymentBucket") s /\
    compute_instance s = Some i /\
    inst_vpcSubnets i = mkSubnetSelection PRIVATE_WITH_EGRESS.
Proof.
  destruct (subnet_placement accept_all no_network None)
    as (s & i & a & Hs & Hi & _ & Hsel & _).
  - vm_compute. reflexivity.
  - exists s, i. repeat split; assumption.
Defined.

(* ================================================================== *)
(** ** The choice of network *)
(* ================================================================== *)

(** C10, on the code.  With [createVpc] false and no usable [vpcId]
    (absent or empty) the constructor takes the new-network branch: it
    runs exactly as in the [createVpc]-true case and never consults
    [fromLookup].  But it does fail: like every run it throws, and in a
    run in which the library raises nothing it throws at line 376, with
    the new network in the tree and no imported one. *)
Theorem missing_vpcId_builds_new_network accepts lookupVpc p :
  createVpc p = Some false ->
  truthy (vpcId p) = false ->
  compose accepts lookupVpc (Some p)
  = compose accepts lookupVpc (Some (with_createVpc (Some true) p)) /\
  (forall lookup', compose accepts lookup' (Some p) = compose accepts lookupVpc (Some p)) /\
  (forall fields s, compose accepts lookupVpc (Some p) <> Returned fields s) /\
  (no_library_error accepts lookupVpc (Some p) ->
   exists s built,
     compose accepts lookupVpc (Some p) = Thrown (DuplicateConstruct "DeploymentBucket") s /\
     vpc_of s "WebSocketVPC" = Some (Vpc_new built) /\
     vpc_of s "ExistingVPC" = None).
Proof.
  intros Hcreate Hid.
  assert (Huse : uses_existing_vpc (Some p) = false).
  { unfold uses_existing_vpc. cbn [optional]. rewrite Hid. apply andb_false_r. }
  split; [ | split; [ | split ] ].
  - unfold compose.
    cbv beta zeta delta [WebSocketApiStack_constructor].
    change (is_false (optional (Some p) createVpc) && truthy (optional (Some p) vpcId))
      with (uses_existing_vpc (Some p)).
    rewrite Huse. destruct p. reflexivity.
  - intros lookup'. apply compose_ignores_resolver. exact Huse.
  - intros fields s. apply compose_never_returns.
  - clear Hcreate Hid. revert Huse. generalize (Some p) as props. clear p.
    intros props Huse Hlib.
    revert Huse. enter_constructor props Hlib; intros Huse; [ discriminate Huse | ].
    do 2 eexists. split; [ vm_compute; reflexivity | ].
    split; vm_compute; reflexivity.
Qed.

Lemma missing_vpcId_builds_new_network_witness :
  compose accept_all one_network (Some (props_of (Some "dev") (Some false) (Some "")))
  = compose accept_all one_network (Some (props_of (Some "dev") (Some true) (Some "")))
  /\ exists s,
       compose accept_all one_network (Some (props_of (Some "dev") (Some false) (Some "")))
       = Thrown (DuplicateConstruct "DeploymentBucket") s.
Proof.
  destruct (missing_vpcId_builds_new_network accept_all one_network
              (props_of (Some "dev") (Some false) (Some "")))
    as (Hsame & _ & _ & Hthrows).
  - reflexivity.
  - reflexivity.
  - split; [ exact Hsame | ].
    destruct Hthrows as (s & built & Hs & _).
    + vm_compute. reflexivity.
    + exists s. exact Hs.
Defined.

(** X1. When an existing network is asked for and [fromLookup] hands one
    back, the constructor declares it under [ExistingVPC] and builds none
    of its own; when it throws at line 376, every construct that lives in
    a network refers to the imported one. *)
Theorem existing_network_is_imported accepts lookupVpc props :
  no_library_error accepts lookupVpc props ->
  uses_existing_vpc props = true ->
  exists s,
    compose accepts lookupVpc props = Thrown (DuplicateConstruct "DeploymentBucket") s /\
    exists a,
      lookupVpc (stack_account props) (stack_region props)
                (js_or (optional props vpcId) "") = Some a /\
      vpc_of s "ExistingVPC" = Some (Vpc_imported a) /\
      vpc_of s "WebSocketVPC" = None /\
      networks_referred s = repeat "ExistingVPC" 5.
Proof.
  intros Hlib. enter_constructor props Hlib; intros Huse; [ | discriminate Huse ].
  run_constructor. exists a. split; [ reflexivity | ].
  repeat split; vm_compute; reflexivity.
Qed.

Lemma existing_network_is_imported_witness :
  exists s,
    compose accept_all one_network (Some (existing_props (Some "dev")))
    = Thrown (DuplicateConstruct "DeploymentBucket") s /\
    vpc_of s "ExistingVPC" = Some (Vpc_imported {| attr_vpcId := "vpc-0a1b2c3d" |}).
Proof.
  destruct (existing_network_is_imported accept_all one_network
              (Some (existing_props (Some "dev"))))
    as (s & Hs & a & Ha & Hvpc & _).
  - vm_compute. reflexivity.
  - reflexivity.
  - exists s. split; [ exact Hs | ].
    vm_compute in Ha. injection Ha as <-. exact Hvpc.
Defined.

(** X3. Unless [createVpc] is exactly [false], a supplied [vpcId] is
    ignored: the constructor runs exactly as it does without it, and
    [fromLookup] is never consulted. *)
Theorem vpcId_ignored_unless_createVpc_false accepts lookupVpc p :
  createVpc p <> Some false ->
  compose accepts lookupVpc (Some p) = compose accepts no_network (Some (with_vpcId None p))
  /\ forall lookup', compose accepts lookup' (Some p) = compose accepts lookupVpc (Some p).
Proof.
  intros Hcreate.
  assert (Huse : uses_existing_vpc (Some p) = false).
  { unfold uses_existing_vpc. cbn [optional].
    destruct (createVpc p) as [[|]|]; try reflexivity. contradiction Hcreate. reflexivity. }
  assert (Huse' : uses_existing_vpc (Some (with_vpcId None p)) = false).
  { unfold uses_existing_vpc. cbn [optional with_vpcId vpcId truthy]. apply andb_false_r. }
  split.
  - rewrite (compose_ignores_resolver accepts lookupVpc no_network (Some p) Huse).
    unfold compose.
    cbv beta zeta delta [WebSocketApiStack_constructor].
    change (is_false (optional (Some p) createVpc) && truthy (optional (Some p) vpcId))
      with (uses_existing_vpc (Some p)).
    change (is_false (optional (Some (with_vpcId None p)) createVpc)
            && truthy (optional (Some (with_vpcId None p)) vpcId))
      with (uses_existing_vpc (Some (with_vpcId None p))).
    rewrite Huse, Huse'. destruct p. reflexivity.
  - intros lookup'. apply compose_ignores_resolver. exact Huse.
Qed.

Lemma vpcId_ignored_unless_createVpc_false_witness :
  compose accept_all one_network (Some (props_of (Some "dev") None (Some "vpc-0a1b2c3d")))
  = compose accept_all no_network (Some (props_of (Some "dev") None None)).
Proof.
  change (props_of (Some "dev") None None)
    with (with_vpcId None (props_of (Some "dev") None (Some "vpc-0a1b2c3d"))).
  destruct (vpcId_ignored_unless_createVpc_false accept_all one_network
              (props_of (Some "dev") None (Some "vpc-0a1b2c3d")))
    as [Hsame _].
  - simpl. discriminate.
  - exact Hsame.
Defined.

(** X4. The network the constructor builds is named after the
    environment, spans at most two availability zones with a single NAT
    gateway, and has a public and a private-with-egress subnet group of
    /24 each; every construct that lives in a network refers to it. *)
Theorem new_network_shape accepts lookupVpc props :
  no_library_error accepts lookupVpc props ->
  uses_existing_vpc props = false ->
  exists s built,
    compose accepts lookupVpc props = Thrown (DuplicateConstruct "DeploymentBucket") s /\
    vpc_of s "WebSocketVPC" = Some (Vpc_new built) /\
    vpcName built = "websocket-api-vpc-" +:+ envName_of props /\
    maxAzs built = 2 /\
    natGateways built = 1%N /\
    subnetConfiguration built
    = [ mkSubnetConfiguration 24 "Public" PUBLIC;
        mkSubnetConfiguration 24 "Private" PRIVATE_WITH_EGRESS ] /\
    vpc_of s "ExistingVPC" = None /\
    networks_referred s = repeat "WebSocketVPC" 5.
Proof.
  intros Hlib. enter_constructor props Hlib; intros Huse; [ discriminate Huse | ].
  run_constructor_then_read.
  cbn [vpcName maxAzs natGateways subnetConfiguration].
  repeat split; vm_compute; reflexivity.
Qed.

Lemma new_network_shape_witness :
  exists s built,
    compose accept_all no_network (Some (props_of (Some "prod") None None))
    = Thrown (DuplicateConstruct "DeploymentBucket") s /\
    vpc_of s "WebSocketVPC" = Some (Vpc_new built) /\
    vpcName built = "websocket-api-vpc-prod".
Proof.
  destruct (new_network_shape accept_all no_network
              (Some (props_of (Some "prod") None None)))
    as (s & built & Hs & Hv & Hname & _).
  - vm_compute. reflexivity.
  - reflexivity.
  - exists s, built. repeat split; assumption.
Defined.

(* ================================================================== *)
(** ** The artifact store, names, and the compute instance *)
(* ================================================================== *)

(** X5. The deployment bucket is named after the environment and the
    account of the stack, blocks all public access, is encrypted with
    S3-managed keys, is retained when the stack goes, is not versioned,
    and expires its objects after 30 days. *)
Theorem deployment_bucket_configuration accepts lookupVpc props :
  no_library_error accepts lookupVpc props ->
  exists s b,
    compose accepts lookupVpc props = Thrown (DuplicateConstruct "DeploymentBucket") s /\
    bucket_of s "DeploymentBucket" = Some b /\
    bucketName b
    = "websocket-api-deployments-" +:+ envName_of props +:+ "-" +:+ stack_account props /\
    blockPublicAccess b = BLOCK_ALL /\
    encryption b = S3_MANAGED /\
    removalPolicy b = RETAIN /\
    versioned b = false /\
    map (fun r => (rule_enabled r, toSeconds (expiration r))) (lifecycleRules b)
    = [ (true, (30 * 86400)%N) ].
Proof.
  intros Hlib. enter_constructor props Hlib; run_constructor_then_read;
    repeat split; vm_compute; reflexivity.
Qed.

Lemma deployment_bucket_configuration_witness :
  exists s b,
    compose accept_all no_network None = Thrown (DuplicateConstruct "DeploymentBucket") s /\
    bucket_of s "DeploymentBucket" = Some b /\
    bucketName b = "websocket-api-deployments-dev-${AWS::AccountId}" /\
    blockPublicAccess b = BLOCK_ALL.
Proof.
  destruct (deployment_bucket_configuration accept_all no_network None)
    as (s & b & Hs & Hb & Hname & Hblock & _).
  - vm_compute. reflexivity.
  - exists s, b. repeat split; assumption.
Defined.







(** X7. The compute instance is of the type the caller gives, and of
    type t3.small when the caller gives none; whatever the environment it
    boots the Ubuntu 22.04 image resolved from its SSM parameter, has one
    encrypted 20 GiB gp3 root volume, assumes a role only the EC2 service
    may assume, and is tagged [Name=WebSocketApi],
    [Environment=<environment name>], [ManagedBy=CDK]. *)
Theorem compute_instance_configuration accepts lookupVpc props :
  no_library_error accepts lookupVpc props ->
  exists s i,
    compose accepts lookupVpc props = Thrown (DuplicateConstruct "DeploymentBucket") s /\
    compute_instance s = Some i /\
    inst_instanceType i
    = js_nullish (optional props instanceType) (InstanceType_of T3 SMALL) /\
    machineImage i
    = MachineImage_fromSsmParameter
        "/aws/service/canonical/ubuntu/server/22.04/stable/current/amd64/hvm/ebs-gp2/ami-id"
        LINUX /\
    blockDevices i = [ mkBlockDevice "/dev/sda1" 20 GP3 true ] /\
    Forall (fun d => encrypted d = true) (blockDevices i) /\
    assumedBy <$> role_of s (inst_role i) = Some "ec2.amazonaws.com" /\
    inst_tags i
    = [ ("Name", "WebSocketApi"); ("Environment", envName_of props); ("ManagedBy", "CDK") ] /\
    tag_value "Environment" (inst_tags i) = Some (envName_of props).
Proof.
  intros Hlib. enter_constructor props Hlib; run_constructor_then_read;
    cbn [inst_instanceType machineImage blockDevices inst_role inst_tags];
    (split; [ reflexivity | ]); (split; [ reflexivity | ]);
    (split; [ reflexivity | ]);
    (split; [ repeat constructor | ]);
    repeat split; vm_compute; reflexivity.
Qed.

Lemma compute_instance_configuration_witness :
  exists s i,
    compose accept_all no_network None = Thrown (DuplicateConstruct "DeploymentBucket") s /\
    compute_instance s = Some i /\
    inst_instanceType i = InstanceType_of T3 SMALL.
Proof.
  destruct (compute_instance_configuration accept_all no_network None)
    as (s & i & Hs & Hi & Hty & _).
  - vm_compute. reflexivity.
  - exists s, i. repeat split; assumption.
Defined.

(* ================================================================== *)
(** ** The traffic path, end to end *)
(* ================================================================== *)

(** X9. The entry point is internet-facing and named after the
    environment; it has a single listener, plain HTTP on port 80, that
    forwards to the one target group (HTTP, port 80, 30 seconds to drain
    on deregistration).  Nothing listens on 443, although the entry
    point's security group admits it. *)
Theorem entry_point_listens_on_http_only accepts lookupVpc props :
  no_library_error accepts lookupVpc props ->
  exists s a,
    compose accepts lookupVpc props = Thrown (DuplicateConstruct "DeploymentBucket") s /\
    entry_point s = Some a /\
    internetFacing a = true /\
    loadBalancerName a = "websocket-api-alb-" +:+ envName_of props /\
    map (fun l => (listener_port l, listener_protocol l, defaultTargetGroups l)) (listeners a)
    = [ (80%N, HTTP, [ "TargetGroup" ]) ] /\
    Forall (fun l => listener_port l <> 443%N) (listeners a) /\
    exists sg tg,
      entry_securityGroup s = Some sg /\
      In (Port_tcp 443) (ingress_ports sg) /\
      target_bindings s = [ Some tg ] /\
      tg_port tg = 80%N /\
      tg_protocol tg = HTTP /\
      targetGroupName tg = "websocket-api-tg-" +:+ envName_of props /\
      toSeconds (deregistrationDelay tg) = 30%N.
Proof.
  intros Hlib. enter_constructor props Hlib; run_constructor_then_read;
    cbn [internetFacing loadBalancerName listeners map listener_port
         listener_protocol defaultTargetGroups];
    (split; [ reflexivity | ]); (split; [ reflexivity | ]);
    (split; [ reflexivity | ]);
    (split; [ repeat constructor; discriminate | ]);
    do 2 eexists;
    (split; [ vm_compute; reflexivity | ]);
    (split; [ vm_compute; tauto | ]);
    (split; [ vm_compute; reflexivity | ]);
    repeat split; reflexivity.
Qed.

Lemma entry_point_listens_on_http_only_witness :
  exists s a,
    compose accept_all no_network None = Thrown (DuplicateConstruct "DeploymentBucket") s /\
    entry_point s = Some a /\
    Forall (fun l => listener_port l <> 443%N) (listeners a).
Proof.
  destruct (entry_point_listens_on_http_only accept_all no_network None)
    as (s & a & Hs & Ha & _ & _ & _ & Hno & _).
  - vm_compute. reflexivity.
  - exists s, a. repeat split; assumption.
Defined.

(** X10. The ports line up along the path, for every environment: the
    port the target group sends to on the instance is the port nginx
    listens on there, and the instance's security group admits it from
    the entry point; the port of nginx's upstream server is the port the
    service is told to listen on. *)
Theorem ports_line_up accepts lookupVpc props :
  no_library_error accepts lookupVpc props ->
  exists s u,
    compose accepts lookupVpc props = Thrown (DuplicateConstruct "DeploymentBucket") s /\
    host_configuration s = Some u /\
    exists tg sg a front back,
      target_bindings s = [ Some tg ] /\
      compute_securityGroup s = Some sg /\
      entry_point s = Some a /\
      reverse_proxy_config u ≫= listen_port = Some front /\
      targets tg <> [] /\
      Forall (fun t => target_port t = front) (targets tg) /\
      In (mkIngressRule (Peer_securityGroup (alb_securityGroup a)) (Port_tcp front)
                        "Allow traffic from ALB")
         (ingressRules sg) /\
      reverse_proxy_config u ≫= upstream_port = Some back /\
      supervision_unit u ≫= service_port = Some back /\
      front <> back.
Proof.
  intros Hlib.
  destruct (script_ports (envName_of props)) as (Hfront & Hup & Hsvc).
  revert Hfront Hup Hsvc.
  enter_constructor props Hlib; subst cmds; intros Hfront Hup Hsvc;
    generalize dependent (userData_commands en); intros cmds Hfront Hup Hsvc;
    do 2 eexists;
    (split; [ vm_compute; reflexivity | ]);
    (split; [ vm_compute; reflexivity | ]);
    do 3 eexists; exists 80%N, 5000%N;
    (split; [ vm_compute; reflexivity | ]);
    (split; [ vm_compute; reflexivity | ]);
    (split; [ vm_compute; reflexivity | ]);
    (split; [ exact Hfront | ]);
    (split; [ discriminate | ]);
    (split; [ repeat constructor | ]);
    (split; [ simpl; tauto | ]);
    (split; [ exact Hup | ]);
    (split; [ exact Hsvc | discriminate ]).
Qed.

Lemma ports_line_up_witness :
  exists s u front back,
    compose accept_all no_network None = Thrown (DuplicateConstruct "DeploymentBucket") s /\
    host_configuration s = Some u /\
    reverse_proxy_config u ≫= listen_port = Some front /\
    reverse_proxy_config u ≫= upstream_port = Some back /\
    front <> back.
Proof.
  destruct (ports_line_up accept_all no_network None)
    as (s & u & Hs & Hu & tg & sg & a & front & back
        & _ & _ & _ & Hfront & _ & _ & _ & Hback & _ & Hne).
  - vm_compute. reflexivity.
  - exists s, u, front, back. repeat split; assumption.
Defined.

(** X11. By line 376 the constructor has declared exactly two security
    groups, both with unrestricted egress; the instance's admits TCP 80
    and 5000 and nothing else, the entry point's TCP 80 and 443 and
    nothing else, and neither admits SSH. *)
Theorem security_group_ports accepts lookupVpc props :
  no_library_error accepts lookupVpc props ->
  exists s compute_sg entry_sg,
    compose accepts lookupVpc props = Thrown (DuplicateConstruct "DeploymentBucket") s /\
    compute_securityGroup s = Some compute_sg /\
    entry_securityGroup s = Some entry_sg /\
    securityGroups s = [ entry_sg; compute_sg ] /\
    ingress_ports compute_sg = [ Port_tcp 80; Port_tcp 5000 ] /\
    ingress_ports entry_sg = [ Port_tcp 80; Port_tcp 443 ] /\
    Forall (fun sg => ~ In (Port_tcp 22) (ingress_ports sg)
                      /\ allowAllOutbound sg = true)
           (securityGroups s).
Proof.
  intros Hlib. enter_constructor props Hlib;
    do 3 eexists;
    (split; [ vm_compute; reflexivity | ]);
    (split; [ vm_compute; reflexivity | ]);
    (split; [ vm_compute; reflexivity | ]);
    (split; [ vm_compute; reflexivity | ]);
    (split; [ reflexivity | ]); (split; [ reflexivity | ]);
    match goal with
    | |- Forall _ ?l =>
        let l' := eval vm_compute in l in
        replace l with l' by (vm_compute; reflexivity)
    end;
    repeat constructor; simpl; intros H; intuition discriminate.
Qed.

Lemma security_group_ports_witness :
  exists s compute_sg,
    compose accept_all no_network None = Thrown (DuplicateConstruct "DeploymentBucket") s /\
    compute_securityGroup s = Some compute_sg /\
    ingress_ports compute_sg = [ Port_tcp 80; Port_tcp 5000 ].
Proof.
  destruct (security_group_ports accept_all no_network None)
    as (s & csg & esg & Hs & Hc & _ & _ & Hports & _).
  - vm_compute. reflexivity.
  - exists s, csg. repeat split; assumption.
Defined.

(* ================================================================== *)
(** ** Outputs, references, defaults *)
(* ================================================================== *)

(** X12. When the constructor throws at line 376 it has declared three
    outputs, [ALBDnsName], [WebSocketURL] and [HealthCheckURL]; the two
    URLs are built from the very value published as the entry point's
    address, and the first two are exported under names that end in the
    environment name.  The outputs [DeploymentBucket], [InstanceId],
    [InstanceTag] and [VpcId] are not in the tree: the identifier
    [DeploymentBucket] is the bucket's. *)
Theorem outputs_declared_before_the_throw accepts lookupVpc props :
  no_library_error accepts lookupVpc props ->
  exists s address,
    compose accepts lookupVpc props = Thrown (DuplicateConstruct "DeploymentBucket") s /\
    value <$> output_of s "ALBDnsName" = Some address /\
    map fst (outputs s) = [ "ALBDnsName"; "WebSocketURL"; "HealthCheckURL" ] /\
    value <$> output_of s "WebSocketURL" = Some ("ws://" +:+ address +:+ "/ws") /\
    value <$> output_of s "HealthCheckURL" = Some ("http://" +:+ address +:+ "/health") /\
    exports s
    = [ ("ALBDnsName", "WebSocketApi-ALB-DNS-" +:+ envName_of props);
        ("WebSocketURL", "WebSocketApi-WS-URL-" +:+ envName_of props) ] /\
    is_Some (bucket_of s "DeploymentBucket") /\
    Forall (fun id => output_of s id = None)
           [ "DeploymentBucket"; "InstanceId"; "InstanceTag"; "VpcId" ].
Proof.
  intros Hlib. enter_constructor props Hlib; run_constructor_then_read;
    (split; [ vm_compute; reflexivity | ]);
    (split; [ vm_compute; reflexivity | ]);
    (split; [ vm_compute; reflexivity | ]);
    (split; [ vm_compute; reflexivity | ]);
    (split; [ eexists; vm_compute; reflexivity | ]);
    repeat constructor; vm_compute; reflexivity.
Qed.

Lemma outputs_declared_before_the_throw_witness :
  exists s,
    compose accept_all no_network None = Thrown (DuplicateConstruct "DeploymentBucket") s /\
    map fst (outputs s) = [ "ALBDnsName"; "WebSocketURL"; "HealthCheckURL" ].
Proof.
  destruct (outputs_declared_before_the_throw accept_all no_network None)
    as (s & address & Hs & _ & Hout & _).
  - vm_compute. reflexivity.
  - exists s. split; assumption.
Defined.

(** X14. When the constructor throws at line 376 each reference in the
    tree resolves: the network of every security group, of the instance,
    of the entry point and of the target group, the instance's security
    group and role, the entry point's security group and target group,
    the target group's instance, the source group of every ingress rule
    and the bucket of every grant are all declared, as constructs of the
    expected kind; and there is one network for all. *)
Theorem composed_graph_is_well_linked accepts lookupVpc props :
  no_library_error accepts lookupVpc props ->
  exists s,
    compose accepts lookupVpc props = Thrown (DuplicateConstruct "DeploymentBucket") s /\
    well_linked s = true /\
    exists network, networks_referred s = repeat network 5 /\ is_Some (vpc_of s network).
Proof.
  intros Hlib. enter_constructor props Hlib; run_constructor;
    (split; [ vm_compute; reflexivity | ]);
    eexists; (split; [ vm_compute; reflexivity | ]);
    eexists; vm_compute; reflexivity.
Qed.

Lemma composed_graph_is_well_linked_witness :
  exists s,
    compose accept_all one_network (Some (existing_props None))
    = Thrown (DuplicateConstruct "DeploymentBucket") s /\
    well_linked s = true.
Proof.
  destruct (composed_graph_is_well_linked accept_all one_network
              (Some (existing_props None)))
    as (s & Hs & Hlinked & _).
  - vm_compute. reflexivity.
  - exists s. split; assumption.
Defined.

(** X23. What is probed and what is published is served: the path the
    target group probes is a route of the instance's reverse proxy,
    passed on to the same path of the service, and it is the path of the
    published health-check URL; the published WebSocket URL points at the
    proxy's [/ws] route.  Each probe times out before the next one is
    due, and only a 200 counts as healthy. *)
Theorem published_paths_are_served accepts lookupVpc props :
  no_library_error accepts lookupVpc props ->
  exists s u,
    compose accepts lookupVpc props = Thrown (DuplicateConstruct "DeploymentBucket") s /\
    host_configuration s = Some u /\
    exists tg address conf probed ws,
      target_bindings s = [ Some tg ] /\
      value <$> output_of s "ALBDnsName" = Some address /\
      reverse_proxy_config u = Some conf /\
      In (path (healthCheck tg)) (Nginx.locations conf) /\
      Nginx.location (path (healthCheck tg)) conf = Some probed /\
      Nginx.directive "proxy_pass" probed
      = [ "http://websocketapi" +:+ path (healthCheck tg) ] /\
      value <$> output_of s "HealthCheckURL"
      = Some ("http://" +:+ address +:+ path (healthCheck tg)) /\
      Nginx.location "/ws" conf = Some ws /\
      Nginx.directive "proxy_pass" ws = [ "http://websocketapi/ws" ] /\
      value <$> output_of s "WebSocketURL" = Some ("ws://" +:+ address +:+ "/ws") /\
      hc_protocol (healthCheck tg) = HTTP /\
      healthyHttpCodes (healthCheck tg) = "200" /\
      (toSeconds (timeout (healthCheck tg)) < toSeconds (interval (healthCheck tg)))%N.
Proof.
  intros Hlib.
  destruct (script_serves (envName_of props) "/health" (or_introl eq_refl))
    as (conf & probed & Hconf & Hin & Hloc & Hpass).
  destruct (script_serves (envName_of props) "/ws" (or_intror eq_refl))
    as (conf' & ws & Hconf' & _ & Hws & Hwspass).
  rewrite Hconf in Hconf'. injection Hconf' as <-.
  revert Hconf Hin Hloc Hpass Hws Hwspass.
  enter_constructor props Hlib; subst cmds;
    generalize (userData_commands en); intros cmds Hconf Hin Hloc Hpass Hws Hwspass;
    do 2 eexists;
    (split; [ vm_compute; reflexivity | ]);
    (split; [ vm_compute; reflexivity | ]);
    do 2 eexists; exists conf, probed, ws;
    (split; [ vm_compute; reflexivity | ]);
    (split; [ vm_compute; reflexivity | ]);
    (split; [ exact Hconf | ]);
    cbn [healthCheck path hc_protocol healthyHttpCodes timeout interval];
    (split; [ exact Hin | ]); (split; [ exact Hloc | ]); (split; [ exact Hpass | ]);
    (split; [ vm_compute; reflexivity | ]);
    (split; [ exact Hws | ]); (split; [ exact Hwspass | ]);
    (split; [ vm_compute; reflexivity | ]);
    repeat split; reflexivity.
Qed.

Lemma published_paths_are_served_witness :
  exists s u tg conf,
    compose accept_all no_network None = Thrown (DuplicateConstruct "DeploymentBucket") s /\
    host_configuration s = Some u /\
    target_bindings s = [ Some tg ] /\
    reverse_proxy_config u = Some conf /\
    In (path (healthCheck tg)) (Nginx.locations conf).
Proof.
  destruct (published_paths_are_served accept_all no_network None)
    as (s & u & Hs & Hu & tg & address & conf & probed & ws
        & Htg & _ & Hconf & Hin & _).
  - vm_compute. reflexivity.
  - exists s, u, tg, conf. repeat split; assumption.
Defined.

(** X20. An environment name that is absent or empty means [dev]: the
    constructor runs as it does for [environmentName: 'dev'], and absent
    props run as empty props do. *)
Theorem missing_environment_name_is_dev accepts lookupVpc p :
  truthy (environmentName p) = false ->
  compose accepts lookupVpc (Some p)
  = compose accepts lookupVpc (Some (with_environmentName (Some "dev") p))
  /\ compose accepts lookupVpc None = compose accepts lookupVpc (Some empty_props)
  /\ envName_of (Some p) = "dev".
Proof.
  intros Hempty.
  assert (Henv : environmentName p = None \/ environmentName p = Some "").
  { destruct (environmentName p) as [[| c s] |]; [ right | discriminate Hempty | left ];
      reflexivity. }
  split; [ | split ].
  - unfold compose.
    cbv beta zeta delta [WebSocketApiStack_constructor Stack_super stack_account
                         stack_region optional with_environmentName].
    destruct p as [sn d e tg en it cv v]. cbn [environmentName] in Henv.
    destruct Henv as [-> | ->]; reflexivity.
  - unfold compose.
    cbv beta zeta delta [WebSocketApiStack_constructor Stack_super stack_account
                         stack_region optional empty_props].
    reflexivity.
  - unfold envName_of. cbn [optional]. destruct Henv as [-> | ->]; reflexivity.
Qed.

Lemma missing_environment_name_is_dev_witness :
  compose accept_all no_network (Some (props_of (Some "") None None))
  = compose accept_all no_network (Some (props_of (Some "dev") None None)).
Proof.
  change (props_of (Some "dev") None None)
    with (with_environmentName (Some "dev") (props_of (Some "") None None)).
  destruct (missing_environment_name_is_dev accept_all no_network
              (props_of (Some "") None None))
    as [Hsame _].
  - reflexivity.
  - exact Hsame.
Defined.
